(** * Startup funding reports: the aggregation core of [app.py] and [app2.py]

    A shallow embedding of the two Streamlit scripts of the repository.
    Both load a table of incubated projects with pandas, coerce some of its
    columns to numbers and tabulate funding rounds per year.  The widgets
    are inputs here (a choice is a parameter), the [st.*] calls are the
    outputs (a list of what is shown), and pandas' operations are written
    out on lists.

    Numbers are IEEE doubles in the scripts.  They are modelled by their
    values: a rational, an infinity ([np.inf] is used as a bin edge) or NaN.
    Comparisons on doubles are the comparisons of their values, so bucketing
    is exact; sums, means and quotients are taken in exact arithmetic, which
    leaves rounding out. *)

From Stdlib Require Import ZArith QArith Qround String List Bool Lia Lqa.
From Stdlib Require Import Permutation.
Import ListNotations.

Local Open Scope string_scope.
Local Open Scope list_scope.

(** ** Floating-point values *)

Module Float.

Inductive fval : Type :=
| NaN
| NInf
| Fin (q : Q)
| PInf.

Definition isnan (x : fval) : bool :=
  match x with NaN => true | _ => false end.


(** [x <= y]: false as soon as one side is NaN. *)
Definition fle (x y : fval) : bool :=
  match x, y with
  | NaN, _ | _, NaN => false
  | NInf, _ => true
  | _, PInf => true
  | Fin a, Fin b => Qle_bool a b
  | Fin _, NInf => false
  | PInf, _ => false
  end.

(** [x < y]. *)
Definition flt (x y : fval) : bool :=
  match x, y with
  | NaN, _ | _, NaN => false
  | NInf, NInf => false
  | NInf, _ => true
  | PInf, _ => false
  | Fin a, Fin b => negb (Qle_bool b a)
  | Fin _, PInf => true
  | Fin _, NInf => false
  end.

(** [x > y]. *)
Definition fgt (x y : fval) : bool := flt y x.

Definition fneg (x : fval) : fval :=
  match x with
  | NaN => NaN
  | NInf => PInf
  | Fin q => Fin (- q)
  | PInf => NInf
  end.

Definition fadd (x y : fval) : fval :=
  match x, y with
  | NaN, _ | _, NaN => NaN
  | Fin a, Fin b => Fin (a + b)
  | PInf, NInf | NInf, PInf => NaN
  | PInf, _ | _, PInf => PInf
  | NInf, _ | _, NInf => NInf
  end.

Definition fsub (x y : fval) : fval := fadd x (fneg y).

(** Values up to the equality of rationals ([NaN] is related to itself: this
    relates two results of the model, it is not the [==] of doubles). *)
Definition feq (x y : fval) : Prop :=
  match x, y with
  | NaN, NaN | NInf, NInf | PInf, PInf => True
  | Fin a, Fin b => a == b
  | _, _ => False
  end.

Definition of_Z (z : Z) : fval := Fin (inject_Z z).

Definition zero : fval := Fin 0.

(** An infinity of sign [pos] times the rational [q]. *)
Definition inf_times (pos : bool) (q : Q) : fval :=
  match Qcompare q 0 with
  | Eq => NaN
  | Gt => if pos then PInf else NInf
  | Lt => if pos then NInf else PInf
  end.

Definition fmul (x y : fval) : fval :=
  match x, y with
  | NaN, _ | _, NaN => NaN
  | Fin a, Fin b => Fin (a * b)
  | PInf, Fin q | Fin q, PInf => inf_times true q
  | NInf, Fin q | Fin q, NInf => inf_times false q
  | PInf, PInf | NInf, NInf => PInf
  | PInf, NInf | NInf, PInf => NaN
  end.

(** Division of a double by a positive count. *)
Definition fdivn (x : fval) (n : nat) : fval :=
  match x with
  | Fin q => Fin (q / inject_Z (Z.of_nat n))
  | other => other
  end.

(** [Series.sum()]: NaN entries are skipped ([skipna=True]). *)
Definition fsum (l : list fval) : fval :=
  fold_right fadd zero (filter (fun x => negb (isnan x)) l).

(** [Series.mean()]: the mean of the entries that are not NaN, NaN when
    there is none. *)
Definition fmean (l : list fval) : fval :=
  match filter (fun x => negb (isnan x)) l with
  | [] => NaN
  | l' => fdivn (fold_right fadd zero l') (length l')
  end.

(** [fillna(v)] on one value. *)
Definition fillna (v x : fval) : fval := if isnan x then v else x.

(** Truncation towards zero. *)
Definition Qtrunc (q : Q) : Z := Z.quot (Qnum q) (Zpos (Qden q)).

(** [int(x)] on a double, and [astype(int)] on one entry of a float
    column: truncation towards zero; both raise on NaN and on an infinity
    ([None]). *)
Definition int_of_float (x : fval) : option Z :=
  match x with
  | Fin q => Some (Qtrunc q)
  | _ => None
  end.

(** The nearest integer, ties to the even one. *)
Definition Qrint (q : Q) : Z :=
  let f := Qfloor q in
  match Qcompare (q - inject_Z f) (1 # 2) with
  | Lt => f
  | Gt => (f + 1)%Z
  | Eq => if Z.even f then f else (f + 1)%Z
  end.

(** [round(x, 2)]. *)
Definition round2 (x : fval) : fval :=
  match x with
  | Fin q => Fin (inject_Z (Qrint (q * 100)) / 100)
  | other => other
  end.

End Float.
Import Float.

(** ** [pd.cut] with [right=False] and value counts *)

(** [bins.searchsorted(x, side="right")] on an increasing array: how many
    edges are [<= x]. *)
Definition searchsorted_right (bins : list fval) (x : fval) : nat :=
  length (filter (fun b => fle b x) bins).

(** [pd.cut(x, bins=bins, labels=labels, right=False)] for one value: the
    label of the bin, or [None] for the missing category (NaN in pandas).
    The value is missing when it is NaN or when no edge, or every edge, is
    [<=] it. *)
Definition cut (bins : list fval) (labels : list string) (x : fval)
  : option string :=
  let ids := searchsorted_right bins x in
  if isnan x || (ids =? length bins)%nat || (ids =? 0)%nat then None
  else nth_error labels (ids - 1).

Definition age_bins_labels : list string :=
  ["<1 an"; "1-2 ans"; "2-3 ans"; ">3 ans"].

Definition age_bins_edges : list fval :=
  [NInf; Fin 1; Fin 2; Fin 3; PInf].

Definition bins_labels : list string :=
  ["<500k"; "500k-1M"; "1M-2M"; "2M-5M"; ">5M"].

Definition bins_edges : list fval :=
  [NInf; Fin 500000; Fin 1000000; Fin 2000000; Fin 5000000; PInf].

(** [edges[i] <= v < edges[i+1]]. *)
Definition in_bucket (edges : list fval) (i : nat) (v : fval) : Prop :=
  fle (nth i edges NaN) v = true /\ flt v (nth (S i) edges NaN) = true.


(** [tranches.value_counts().reindex(labels, fill_value=0)]: for each label,
    in the order of [labels], how many values fell in its bin; the missing
    category is not counted. *)
Definition value_counts (labels : list string) (tranches : list (option string))
  : list nat :=
  map (fun l =>
         length (filter (fun t => match t with
                                  | Some l' => String.eqb l' l
                                  | None => false
                                  end) tranches))
      labels.

(** A bucket-by-year table: for each year its column, in the order of the
    row labels. *)
Definition table (A : Type) : Type := list (Z * list A).

Definition colonne {A : Type} (t : table A) (annee : Z) : option (list A) :=
  match find (fun c => Z.eqb (fst c) annee) t with
  | Some c => Some (snd c)
  | None => None
  end.

(** ** The uploaded table *)

(** A cell of the uploaded sheet: a number (an empty cell is read as NaN), a
    text that [pd.to_numeric] reads as a number (such as "12" or "inf"), or
    any other text. *)
Inductive cell : Type :=
| CNum (x : fval)
| CNumText (x : fval)
| CText (s : string).

Definition Row : Type := string -> cell.

Record DataFrame : Type := {
  columns : list string;
  rows : list Row
}.

(** The row holding the given cells, empty elsewhere. *)
Fixpoint row_of (l : list (string * cell)) : Row :=
  fun col =>
    match l with
    | [] => CNum NaN
    | (c, v) :: l' => if String.eqb c col then v else row_of l' col
    end.

(** [pd.to_numeric(..., errors='coerce')] on one cell. *)
Definition to_numeric (c : cell) : fval :=
  match c with
  | CNum x | CNumText x => x
  | CText _ => NaN
  end.

(** ** [app.py] *)

Module App.

Definition required_columns : list string :=
  [ "Année RCS"; "Année entrée incubation"; "Année de primolevée";
    "Montant 2021 (si >100K)"; "Montant 2022 (si >100K)";
    "Montant 2023 (si >100K)"; "Montant 2024 (si >100K)";
    "Indus+Bioéco"; "Numérique"; "Santé";
    "EXOGENE"; "ENDOGENE";
    "Le projet est-il labellisé Deeptech par la BPI ?";
    "Lien recherche publique fr?" ].

(** [[c for c in required_columns if c not in df.columns]] *)
Definition missing_cols (df : DataFrame) : list string :=
  filter (fun c => negb (existsb (String.eqb c) (columns df))) required_columns.

(** A row once the three coercion loops have run: the year columns are
    doubles (NaN when unknown), the amount columns doubles with NaN replaced
    by 0, the flag columns integers. *)
Record Projet : Type := {
  annee_rcs : fval;
  annee_entree_incubation : fval;
  annee_primolevee : fval;
  montant_2021 : fval;
  montant_2022 : fval;
  montant_2023 : fval;
  montant_2024 : fval;
  indus_bioeco : Z;
  numerique : Z;
  sante : Z;
  exogene : Z;
  endogene : Z;
  deeptech_bpi : Z;
  lien_recherche : Z
}.

(** First loop: [pd.to_numeric(df[col], errors='coerce')]. *)
Definition coerce_annee (c : cell) : fval := to_numeric c.

(** Second loop: [pd.to_numeric(df[col], errors='coerce').fillna(0)]. *)
Definition coerce_montant (c : cell) : fval := fillna zero (to_numeric c).

(** Third loop: [pd.to_numeric(df[col], errors='coerce').fillna(0).astype(int)];
    [None] when the cast raises. *)
Definition coerce_flag (c : cell) : option Z :=
  int_of_float (fillna zero (to_numeric c)).

Definition pretraitement_ligne (r : Row) : option Projet :=
  match coerce_flag (r "Indus+Bioéco"), coerce_flag (r "Numérique"),
        coerce_flag (r "Santé"), coerce_flag (r "EXOGENE"),
        coerce_flag (r "ENDOGENE"),
        coerce_flag (r "Le projet est-il labellisé Deeptech par la BPI ?"),
        coerce_flag (r "Lien recherche publique fr?") with
  | Some ib, Some nu, Some sa, Some exo, Some endo, Some dt, Some lr =>
      Some {| annee_rcs := coerce_annee (r "Année RCS");
              annee_entree_incubation := coerce_annee (r "Année entrée incubation");
              annee_primolevee := coerce_annee (r "Année de primolevée");
              montant_2021 := coerce_montant (r "Montant 2021 (si >100K)");
              montant_2022 := coerce_montant (r "Montant 2022 (si >100K)");
              montant_2023 := coerce_montant (r "Montant 2023 (si >100K)");
              montant_2024 := coerce_montant (r "Montant 2024 (si >100K)");
              indus_bioeco := ib; numerique := nu; sante := sa;
              exogene := exo; endogene := endo;
              deeptech_bpi := dt; lien_recherche := lr |}
  | _, _, _, _, _, _, _ => None
  end.

(** The three loops over the whole table: [None] when a cast to integer
    raises on some row. *)
Fixpoint pretraitement (lignes : list Row) : option (list Projet) :=
  match lignes with
  | [] => Some []
  | r :: rs =>
      match pretraitement_ligne r, pretraitement rs with
      | Some p, Some ps => Some (p :: ps)
      | _, _ => None
      end
  end.



Definition annees_levée : list Z := [2021; 2022; 2023; 2024]%Z.

(** [df[f"Montant {annee} (si >100K)"]] on one row, for a year of
    [annees_levée] (no other year is ever looked up). *)
Definition montant (annee : Z) (p : Projet) : fval :=
  if (annee =? 2021)%Z then montant_2021 p
  else if (annee =? 2022)%Z then montant_2022 p
  else if (annee =? 2023)%Z then montant_2023 p
  else if (annee =? 2024)%Z then montant_2024 p
  else NaN.

(** [df[col] > 0] on one row. *)
Definition mask_lev (annee : Z) (p : Projet) : bool :=
  fgt (montant annee p) zero.

(** The third column of the summary: a number or the text "N/A". *)
Inductive delai : Type :=
| Valeur (x : fval)
| NA.

Record stat : Type := {
  nb_projets : nat;
  montant_total : Z;
  delai_moyen : delai
}.

(** One turn of the loop that fills [stats]; [None] when [int(...)]
    raises. *)
Definition stats_annee (df : list Projet) (annee : Z) : option stat :=
  let selection := filter (mask_lev annee) df in
  let nb := length selection in
  match int_of_float (fsum (map (montant annee) selection)) with
  | None => None
  | Some total =>
      let ecart_moyen :=
        if (0 <? nb)%nat
        then fmean (map (fun p => fsub (annee_primolevee p) (annee_rcs p)) selection)
        else NaN in
      Some {| nb_projets := nb;
              montant_total := total;
              delai_moyen := if negb (isnan ecart_moyen)
                             then Valeur (round2 ecart_moyen) else NA |}
  end.

Fixpoint stats_boucle (df : list Projet) (annees : list Z)
  : option (list (Z * stat)) :=
  match annees with
  | [] => Some []
  | a :: rest =>
      match stats_annee df a, stats_boucle df rest with
      | Some s, Some l => Some ((a, s) :: l)
      | _, _ => None
      end
  end.

Definition stats (df : list Projet) : option (list (Z * stat)) :=
  stats_boucle df annees_levée.

(** The radio button "Année de référence pour calcul âge et écarts". *)
Inductive annee_ref : Type :=
| AnneeRCS
| AnneeEntreeIncubation.

Definition ref (a : annee_ref) (p : Projet) : fval :=
  match a with
  | AnneeRCS => annee_rcs p
  | AnneeEntreeIncubation => annee_entree_incubation p
  end.

(** The loop that fills [table_age_global] (and [table_age] under a
    filter). *)
Definition table_age (df : list Projet) (a : annee_ref) : table nat :=
  map (fun annee_lev =>
         let ages := map (fun p => fsub (of_Z annee_lev) (ref a p))
                         (filter (mask_lev annee_lev) df) in
         let tranches := map (cut age_bins_edges age_bins_labels) ages in
         (annee_lev, value_counts age_bins_labels tranches))
      annees_levée.

(** The loop that fills [df_tranches_global] (and [df_tranches] under a
    filter). *)
Definition df_tranches (df : list Projet) : table nat :=
  map (fun annee_lev =>
         let levs := map (montant annee_lev) (filter (mask_lev annee_lev) df) in
         let tranches := map (cut bins_edges bins_labels) levs in
         (annee_lev, value_counts bins_labels tranches))
      annees_levée.

(** One entry of [df.div(df.sum(axis=0), axis=1)]: the quotient of two
    integers as a double. *)
Definition div_count (c total : nat) : fval :=
  if (total =? 0)%nat then (if (c =? 0)%nat then NaN else PInf)
  else Fin (Z.of_nat c # Pos.of_nat total).

(** [df_tranches.div(df_tranches.sum(axis=0), axis=1).fillna(0) * 100] *)
Definition df_tranches_pct (t : table nat) : table fval :=
  map (fun c =>
         let total := list_sum (snd c) in
         (fst c, map (fun n => fmul (fillna zero (div_count n total)) (Fin 100))
                     (snd c)))
      t.

(** What the page shows, without its fixed headings. *)
Inductive sortie : Type :=
| TotalProjets (n : nat)
| TableStats (t : list (Z * stat))
| NombreRetenus (n : nat)
| Avertissement (msg : string)
| TableAge (t : table nat)
| TableTranches (t : table nat)
| Graphique (pct : table fval).

(** The radio button of a filter: "Tous", [label_oui] or [label_non]. *)
Inductive choix : Type :=
| Tous
| Oui
| Non.

(** The flag columns [analyse_par_filtre] is called with. *)
Inductive filtre_col : Type :=
| IndusBioeco
| Numerique
| Sante
| Deeptech
| LienRecherche.

Definition flag (c : filtre_col) (p : Projet) : Z :=
  match c with
  | IndusBioeco => indus_bioeco p
  | Numerique => numerique p
  | Sante => sante p
  | Deeptech => deeptech_bpi p
  | LienRecherche => lien_recherche p
  end.

(** The rows [analyse_par_filtre] keeps. *)
Definition df_filtre (df_source : list Projet) (c : filtre_col) (ch : choix)
  : list Projet :=
  match ch with
  | Oui => filter (fun p => (flag c p =? 1)%Z) df_source
  | Non => filter (fun p => (flag c p =? 0)%Z) df_source
  | Tous => df_source
  end.

Definition analyse_par_filtre (df_source : list Projet) (c : filtre_col)
  (ch : choix) (a : annee_ref) : list sortie :=
  let df_filtre := df_filtre df_source c ch in
  NombreRetenus (length df_filtre) ::
  if (length df_filtre =? 0)%nat
  then [Avertissement "Aucun projet correspondant à ce filtre."]
  else [TableAge (table_age df_filtre a);
        TableTranches (df_tranches df_filtre);
        Graphique (df_tranches_pct (df_tranches df_filtre))].

(** The radio button "Choisissez la catégorie à filtrer". *)
Inductive choix_exoendo : Type :=
| ToutesOrigines
| EXOGENE
| ENDOGENE.

Definition df_exoendo (df : list Projet) (ch : choix_exoendo) : list Projet :=
  match ch with
  | EXOGENE => filter (fun p => (exogene p =? 1)%Z) df
  | ENDOGENE => filter (fun p => (endogene p =? 1)%Z) df
  | ToutesOrigines => df
  end.

Definition analyse_exoendo (df : list Projet) (ch : choix_exoendo)
  (a : annee_ref) : list sortie :=
  let df_exoendo := df_exoendo df ch in
  NombreRetenus (length df_exoendo) ::
  if (0 <? length df_exoendo)%nat
  then [TableAge (table_age df_exoendo a);
        TableTranches (df_tranches df_exoendo);
        Graphique (df_tranches_pct (df_tranches df_exoendo))]
  else [].

(** The choices made on the page. *)
Record widgets : Type := {
  annee_ref_global : annee_ref;
  filter_ : filtre_col -> choix;
  filter_exoendo : choix_exoendo
}.

(** How a run of the script on an uploaded table ends. *)
Inductive resultat : Type :=
| Arret (missing_cols : list string)
| Exception
| Page (out : list sortie).

(** The script, from the check of the columns on. *)
Definition app (df : DataFrame) (w : widgets) : resultat :=
  match missing_cols df with
  | (_ :: _) as manquantes => Arret manquantes
  | [] =>
      match pretraitement (rows df) with
      | None => Exception
      | Some projets =>
          match stats projets with
          | None => Exception
          | Some s =>
              let a := annee_ref_global w in
              Page ([TotalProjets (length projets);
                     TableStats s;
                     TableAge (table_age projets a);
                     TableTranches (df_tranches projets);
                     Graphique (df_tranches_pct (df_tranches projets))]
                    ++ flat_map (fun c => analyse_par_filtre projets c (filter_ w c) a)
                                [IndusBioeco; Numerique; Sante; Deeptech; LienRecherche]
                    ++ analyse_exoendo projets (filter_exoendo w) a)
          end
      end
  end.

End App.

(** ** [app2.py] *)

Module App2.

(** A row of [df] once the amount columns ([year_cols]) went through
    [pd.to_numeric(..., errors='coerce')]; the other columns stay as they
    were uploaded. *)
Record Ligne : Type := {
  montant_2021 : fval;
  montant_2022 : fval;
  montant_2023 : fval;
  montant_2024 : fval;
  indus_bioeco : cell;
  numerique : cell;
  sante : cell;
  deeptech : cell;
  lien_recherche : cell;
  endogene : cell;
  exogene : cell
}.

Definition charger_ligne (r : Row) : Ligne :=
  {| montant_2021 := to_numeric (r "Montant 2021 (si >100K)");
     montant_2022 := to_numeric (r "Montant 2022 (si >100K)");
     montant_2023 := to_numeric (r "Montant 2023 (si >100K)");
     montant_2024 := to_numeric (r "Montant 2024 (si >100K)");
     indus_bioeco := r "Indus+Bioéco";
     numerique := r "Numérique";
     sante := r "Santé";
     deeptech := r "Deeptech";
     lien_recherche := r "Lien recherche publique fr?";
     endogene := r "ENDOGENE";
     exogene := r "EXOGENE" |}.

Definition charger (df : DataFrame) : list Ligne := map charger_ligne (rows df).

(** [[row[col] for col in year_cols]] *)
Definition year_cols (row : Ligne) : list fval :=
  [montant_2021 row; montant_2022 row; montant_2023 row; montant_2024 row].

(** [pd.notnull] on a double. *)
Definition notnull (x : fval) : bool := negb (isnan x).

(** [enumerate(l)], counting from [i]. *)
Fixpoint enumerate {A : Type} (i : Z) (l : list A) : list (Z * A) :=
  match l with
  | [] => []
  | x :: l' => (i, x) :: enumerate (i + 1)%Z l'
  end.

(** The list [levées] of (['Année'], ['Montant']) entries. *)
Definition levées (df : list Ligne) : list (Z * fval) :=
  flat_map (fun row =>
              flat_map (fun im =>
                          if notnull (snd im)
                          then [((2021 + fst im)%Z, snd im)]
                          else [])
                       (enumerate 0%Z (year_cols row)))
           df.

Record ligne_synthèse : Type := {
  nb_levées : nat;
  montant_total : fval;
  montant_moyen : fval
}.

(** The amounts of one group of [df_levées.groupby('Année')['Montant']]. *)
Definition groupe (l : list (Z * fval)) (annee : Z) : list fval :=
  map snd (filter (fun e => Z.eqb (fst e) annee) l).

(** The group keys, in increasing order: the years of [levées] are among
    2021..2024. *)
Definition clés (l : list (Z * fval)) : list Z :=
  filter (fun a => existsb (fun e => Z.eqb (fst e) a) l)
         [2021; 2022; 2023; 2024]%Z.

(** The table [synthèse], one row per year that has an entry; [None] when
    [levées] is empty: the frame built from it has no column ['Année'] and
    [groupby] raises. *)
Definition synthèse (df : list Ligne) : option (list (Z * ligne_synthèse)) :=
  match levées df with
  | [] => None
  | l =>
      Some (map (fun a =>
                   let g := groupe l a in
                   (a, {| nb_levées := length (filter notnull g);
                          montant_total := fsum g;
                          montant_moyen := fmean g |}))
                (clés l))
  end.

(** [df[col] == 1] on a cell as uploaded: true on the number 1 only. *)
Definition eq1 (c : cell) : bool :=
  match c with
  | CNum (Fin q) => Qeq_bool q 1
  | _ => false
  end.

(** The keys of [filières]. *)
Inductive filière : Type :=
| IndusBioeco
| Numerique
| Sante.

(** [df[filières[f]]] on one row. *)
Definition col_filière (f : filière) (row : Ligne) : cell :=
  match f with
  | IndusBioeco => indus_bioeco row
  | Numerique => numerique row
  | Sante => sante row
  end.

(** The select box "Origine du projet". *)
Inductive origine : Type :=
| Tous
| Endogène
| Exogène.

(** The widgets of the expander "Filtres". *)
Record sélection : Type := {
  selected_filière : list filière;
  deeptech_uniquement : bool;
  lien : bool;
  endo_exo : origine
}.

(** The mask built by the loop over [selected_filière], on one row. *)
Definition mask (fs : list filière) (row : Ligne) : bool :=
  fold_left (fun m f => m || eq1 (col_filière f row)) fs false.

(** The four criteria, each as the rows it keeps. *)
Definition critère_filière (s : sélection) (row : Ligne) : bool :=
  match selected_filière s with
  | [] => true
  | fs => mask fs row
  end.

Definition critère_deeptech (s : sélection) (row : Ligne) : bool :=
  if deeptech_uniquement s then eq1 (deeptech row) else true.

Definition critère_lien (s : sélection) (row : Ligne) : bool :=
  if lien s then eq1 (lien_recherche row) else true.

Definition critère_origine (s : sélection) (row : Ligne) : bool :=
  match endo_exo s with
  | Endogène => eq1 (endogene row)
  | Exogène => eq1 (exogene row)
  | Tous => true
  end.

(** The frame [filtre], as the script narrows it step by step. *)
Definition filtre (df : list Ligne) (s : sélection) : list Ligne :=
  let filtre := df in
  let filtre :=
    match selected_filière s with
    | [] => filtre
    | fs => filter (mask fs) filtre
    end in
  let filtre :=
    if deeptech_uniquement s
    then filter (fun row => eq1 (deeptech row)) filtre else filtre in
  let filtre :=
    if lien s
    then filter (fun row => eq1 (lien_recherche row)) filtre else filtre in
  match endo_exo s with
  | Endogène => filter (fun row => eq1 (endogene row)) filtre
  | Exogène => filter (fun row => eq1 (exogene row)) filtre
  | Tous => filtre
  end.

(** ** [app2.py]: the summary by sector *)

(** [montants.sum()] on a numpy array: nothing is skipped. *)
Definition np_sum (l : list fval) : fval := fold_right fadd zero l.

(** [montants.mean()] on a numpy array. *)
Definition np_mean (l : list fval) : fval :=
  match l with
  | [] => NaN
  | _ => fdivn (np_sum l) (length l)
  end.

(** [df[df[col_filière] == 1]] *)
Definition fdf (df : list Ligne) (f : filière) : list Ligne :=
  filter (fun row => eq1 (col_filière f row)) df.

(** The array [montants] of a sector: the amounts of its rows, row by row,
    without the null ones. *)
Definition montants (df : list Ligne) (f : filière) : list fval :=
  filter notnull (flat_map year_cols (fdf df f)).

Record ligne_filière : Type := {
  nb_levées_filière : nat;
  total_filière : fval;
  moyen_filière : fval
}.

(** One row of [synthèse_filière]. *)
Definition synthèse_filière_ligne (df : list Ligne) (f : filière)
  : ligne_filière :=
  match montants df f with
  | [] => {| nb_levées_filière := 0;
             total_filière := Fin 0;
             moyen_filière := Fin 0 |}
  | l => {| nb_levées_filière := length l;
            total_filière := round2 (np_sum l);
            moyen_filière := round2 (np_mean l) |}
  end.

Definition synthèse_filière (df : list Ligne) : list (filière * ligne_filière) :=
  map (fun f => (f, synthèse_filière_ligne df f)) [IndusBioeco; Numerique; Sante].

(** ** [app2.py]: the two figures of the filtered frame *)

(** The columns [year_cols], as the amounts they hold on a row. *)
Definition colonnes_montant : list (Ligne -> fval) :=
  [montant_2021; montant_2022; montant_2023; montant_2024].



(** ** [app2.py]: the detail by sector, criterion and year *)

(** The keys of [catégories]. *)
Inductive catégorie : Type :=
| CatEndogène
| CatExogène
| CatLienRecherche
| CatDeeptech.

(** [fdf[catégories[cat]]] on one row. *)
Definition col_catégorie (c : catégorie) (row : Ligne) : cell :=
  match c with
  | CatEndogène => endogene row
  | CatExogène => exogene row
  | CatLienRecherche => lien_recherche row
  | CatDeeptech => deeptech row
  end.

(** [fdf.shape[0] if fdf.shape[0] > 0 else 1] *)
Definition total_projets (fdf : list Ligne) : nat :=
  if (0 <? length fdf)%nat then length fdf else 1%nat.

(** [cdf = fdf[fdf[cat_col] == 1]] *)
Definition cdf (df : list Ligne) (f : filière) (c : catégorie) : list Ligne :=
  filter (fun row => eq1 (col_catégorie c row)) (fdf df f).

(** The three values written in [tableau] for a criterion and a year,
    before they are formatted as text. *)
Record case : Type := {
  montant : fval;
  nb_proj : nat;
  pct : fval
}.

Definition tableau_case (df : list Ligne) (f : filière) (c : catégorie)
  (col_montant : Ligne -> fval) : case :=
  let total_projets := total_projets (fdf df f) in
  let cdf := cdf df f c in
  let nb_proj := length (filter (fun row => notnull (col_montant row)) cdf) in
  {| montant := fsum (map col_montant cdf);
     nb_proj := nb_proj;
     pct := if (0 <? total_projets)%nat
            then Fin ((Z.of_nat nb_proj # Pos.of_nat total_projets) * 100)
            else Fin 0 |}.

(** The table of one sector: for each criterion, one case per year. *)
Definition tableau (df : list Ligne) (f : filière)
  : list (catégorie * list case) :=
  map (fun c => (c, map (tableau_case df f c) colonnes_montant))
      [CatEndogène; CatExogène; CatLienRecherche; CatDeeptech].

End App2.

(** ** Composition of row criteria *)

(** The criteria applied one after the other, each on what the previous
    ones kept. *)
Definition appliquer {A : Type} (critères : list (A -> bool)) (df : list A)
  : list A :=
  fold_left (fun d c => filter c d) critères df.

(** The criteria as one predicate: their conjunction. *)
Definition conjonction {A : Type} (critères : list (A -> bool)) (row : A) : bool :=
  forallb (fun c => c row) critères.

(** The active criteria of a selection of [app2.py]. *)
Definition critères (s : App2.sélection) : list (App2.Ligne -> bool) :=
  [App2.critère_filière s; App2.critère_deeptech s;
   App2.critère_lien s; App2.critère_origine s].

(** A criterion of [app.py]: a flag column with its three-way choice. *)
Definition critère_app (c : App.filtre_col) (ch : App.choix) (p : App.Projet)
  : bool :=
  match ch with
  | App.Oui => (App.flag c p =? 1)%Z
  | App.Non => (App.flag c p =? 0)%Z
  | App.Tous => true
  end.

(** * Notions used by the statements *)

(** ** Bin edges and counts *)

(** Edges in strictly increasing order. *)
Fixpoint croissant (edges : list fval) : bool :=
  match edges with
  | a :: ((b :: _) as rest) => flt a b && croissant rest
  | _ => true
  end.

(** Whether a binned value carries the label [l]. *)
Definition porte (l : string) (t : option string) : bool :=
  match t with
  | Some l' => String.eqb l' l
  | None => false
  end.

(** In how many rows of the count table a binned value is counted. *)
Definition touche (labels : list string) (t : option string) : nat :=
  list_sum (map (fun l => if porte l t then 1 else 0)%nat labels).


(** ** Percentages *)


(** ** Summary statistics *)





(** ** Coercions *)



(** * Sample tables and choices *)

(** Three projects.  A raised 600000 in 2021, one year after its
    registration.  B has an amount of 0 for 2021 and raised 1200000 in 2022;
    its registration year is not a number.  C has no amount at all. *)
Definition table_exemple : DataFrame :=
  {| columns := App.required_columns;
     rows :=
       [ row_of [("Année RCS", CNum (Fin 2020));
                 ("Année entrée incubation", CNum (Fin 2020));
                 ("Année de primolevée", CNum (Fin 2021));
                 ("Montant 2021 (si >100K)", CNum (Fin 600000));
                 ("Numérique", CNum (Fin 1));
                 ("EXOGENE", CNum (Fin 1))];
         row_of [("Année RCS", CText "inconnue");
                 ("Année de primolevée", CNum (Fin 2022));
                 ("Montant 2021 (si >100K)", CNum (Fin 0));
                 ("Montant 2022 (si >100K)", CNumText (Fin 1200000));
                 ("Santé", CNum (Fin 1));
                 ("ENDOGENE", CNum (Fin 1))];
         row_of [("Année RCS", CNum (Fin 2019));
                 ("Indus+Bioéco", CNum (Fin 1))] ] |}.

(** [table_exemple] after the coercions of [app.py]. *)
Definition projets_exemple : list App.Projet :=
  match App.pretraitement (rows table_exemple) with
  | Some l => l
  | None => []
  end.



(** A table with two of the required columns only, and a flag cell that no
    cast to integers accepts. *)
Definition table_incomplete : DataFrame :=
  {| columns := ["Année RCS"; "Santé"];
     rows := [row_of [("Année RCS", CNum (Fin 2020)); ("Santé", CNum PInf)]] |}.

(** Every filter left on "Tous", ages counted from the registration
    year. *)
Definition widgets_defaut : App.widgets :=
  {| App.annee_ref_global := App.AnneeRCS;
     App.filter_ := fun _ => App.Tous;
     App.filter_exoendo := App.ToutesOrigines |}.

(** The sectors "Numérique" or "Santé", projects of external origin. *)
Definition sélection_exemple : App2.sélection :=
  {| App2.selected_filière := [App2.Numerique; App2.Sante];
     App2.deeptech_uniquement := false;
     App2.lien := false;
     App2.endo_exo := App2.Exogène |}.

(** * Notions used by the further properties *)

(** The amount column of a year. *)
Definition nom_montant (annee : Z) : string :=
  if (annee =? 2021)%Z then "Montant 2021 (si >100K)"
  else if (annee =? 2022)%Z then "Montant 2022 (si >100K)"
  else if (annee =? 2023)%Z then "Montant 2023 (si >100K)"
  else "Montant 2024 (si >100K)".

(** The amount of a year on a row of [app2.py]. *)
Definition montant_app2 (annee : Z) (row : App2.Ligne) : fval :=
  if (annee =? 2021)%Z then App2.montant_2021 row
  else if (annee =? 2022)%Z then App2.montant_2022 row
  else if (annee =? 2023)%Z then App2.montant_2023 row
  else App2.montant_2024 row.

(** Two columns added row by row. *)
Definition add_col (c1 c2 : list nat) : list nat :=
  map (fun ab => (fst ab + snd ab)%nat) (combine c1 c2).

(** A reference year from which an age can be put in a bucket: neither
    NaN nor [-inf]. *)
Definition ref_comptée (x : fval) : bool :=
  match x with
  | NaN | NInf => false
  | _ => true
  end.


(** * Properties *)

(** ** Comparisons of doubles *)

Lemma Qle_bool_false (a b : Q) : Qle_bool a b = false -> b < a.
Proof.
  intro H. apply Qnot_le_lt. intro Hle.
  apply Qle_bool_iff in Hle. congruence.
Qed.


Lemma flt_Fin (a b : Q) : flt (Fin a) (Fin b) = true <-> a < b.
Proof.
  simpl. destruct (Qle_bool b a) eqn:E; simpl.
  - apply Qle_bool_iff in E. split; [discriminate | intro; lra].
  - apply Qle_bool_false in E. tauto.
Qed.

Lemma fgt_zero_Fin (q : Q) : fgt (Fin q) zero = true <-> 0 < q.
Proof. unfold fgt, zero. apply flt_Fin. Qed.

(** Every comparison of the bin edges with a finite value, turned into a
    fact on rationals. *)
Ltac edges q :=
  repeat match goal with
         | |- context [Qle_bool ?a q] =>
             let E := fresh "E" in
             destruct (Qle_bool a q) eqn:E;
             [apply Qle_bool_iff in E | apply Qle_bool_false in E]
         end.

(** ** [pd.cut] on increasing edges *)

Ltac qbool :=
  repeat match goal with
         | H : negb _ = true |- _ => apply negb_true_iff in H
         | H : negb _ = false |- _ => apply negb_false_iff in H
         | H : Qle_bool _ _ = true |- _ => apply Qle_bool_iff in H
         | H : Qle_bool _ _ = false |- _ => apply Qle_bool_false in H
         | |- negb _ = true => apply negb_true_iff
         | |- negb _ = false => apply negb_false_iff
         | |- Qle_bool _ _ = true => apply Qle_bool_iff
         | |- Qle_bool ?a ?b = false =>
             let E := fresh "E" in
             destruct (Qle_bool a b) eqn:E; [exfalso | reflexivity]
         end;
  try lra.

Lemma flt_fle_false (x y : fval) : flt x y = true -> fle y x = false.
Proof. destruct x, y; simpl; intro H; try discriminate; try reflexivity; qbool. Qed.

Lemma flt_trans (x y z : fval) :
  flt x y = true -> flt y z = true -> flt x z = true.
Proof.
  destruct x, y, z; simpl; intros H1 H2; try discriminate; try reflexivity; qbool.
Qed.

Lemma fle_total (x y : fval) :
  isnan x = false -> isnan y = false -> fle y x = false -> flt x y = true.
Proof.
  destruct x, y; simpl; intros Hx Hy H; try discriminate; try reflexivity; qbool.
Qed.

Lemma flt_not_nan_r (x y : fval) : flt x y = true -> isnan y = false.
Proof. destruct x, y; simpl; intro H; try discriminate; reflexivity. Qed.

(** Below the first edge of increasing edges, no edge is counted. *)
Lemma searchsorted_right_below (b : fval) (rest : list fval) (x : fval) :
  croissant (b :: rest) = true -> flt x b = true ->
  searchsorted_right (b :: rest) x = 0%nat.
Proof.
  revert b. induction rest as [|c rest IH]; intros b Hs Hx.
  - unfold searchsorted_right. simpl. rewrite (flt_fle_false _ _ Hx). reflexivity.
  - cbn [croissant] in Hs. apply andb_prop in Hs. destruct Hs as [Hbc Hs].
    specialize (IH c Hs (flt_trans _ _ _ Hx Hbc)).
    unfold searchsorted_right in *. cbn [filter] in *.
    rewrite (flt_fle_false _ _ Hx). exact IH.
Qed.

Lemma searchsorted_right_cons (b : fval) (rest : list fval) (x : fval) :
  searchsorted_right (b :: rest) x
  = ((if fle b x then 1 else 0) + searchsorted_right rest x)%nat.
Proof. unfold searchsorted_right. simpl. destruct (fle b x); reflexivity. Qed.

(** On increasing edges, [i + 1] edges are counted exactly when the value
    lies between edge [i], included, and edge [i + 1], excluded. *)
Lemma searchsorted_right_bucket (bins : list fval) (x : fval) (i : nat) :
  croissant bins = true -> isnan x = false -> (S i < length bins)%nat ->
  searchsorted_right bins x = S i <-> in_bucket bins i x.
Proof.
  unfold in_bucket. revert i.
  induction bins as [|b rest IH]; intros i Hs Hx Hi; [simpl in Hi; lia |].
  destruct rest as [|c rest]; [simpl in Hi; lia |].
  pose proof Hs as Hs'. cbn [croissant] in Hs'.
  apply andb_prop in Hs'. destruct Hs' as [Hbc Hrest].
  rewrite searchsorted_right_cons.
  destruct (fle b x) eqn:Hb.
  - destruct i as [|i]; cbn [nth].
    + rewrite Hb. split.
      * intro H. split; [reflexivity |].
        apply fle_total; [exact Hx | apply (flt_not_nan_r b), Hbc |].
        rewrite searchsorted_right_cons in H.
        destruct (fle c x); [lia | reflexivity].
      * intros [_ H]. rewrite (searchsorted_right_below c rest x Hrest H).
        reflexivity.
    + rewrite <- (IH i Hrest Hx) by (simpl in *; lia). lia.
  - assert (Hlt : flt x b = true).
    { apply fle_total; [exact Hx | | exact Hb].
      destruct b; try reflexivity. simpl in Hbc. discriminate. }
    rewrite (searchsorted_right_below c rest x Hrest (flt_trans _ _ _ Hlt Hbc)).
    split; [intro H; simpl in H; lia |].
    destruct i as [|i]; cbn [nth].
    + rewrite Hb. intros [H _]. discriminate.
    + intro H. apply (IH i Hrest Hx) in H; [| simpl in *; lia].
      rewrite (searchsorted_right_below c rest x Hrest (flt_trans _ _ _ Hlt Hbc)) in H.
      discriminate.
Qed.

(** For increasing edges, one more edge than labels, and labels without
    repetition: a value that is not NaN gets the label of bucket [i] exactly
    when it lies in the interval of that bucket. *)
Lemma cut_in_bucket (bins : list fval) (labels : list string) (x : fval) (i : nat) :
  croissant bins = true ->
  length bins = S (length labels) ->
  NoDup labels ->
  isnan x = false ->
  (i < length labels)%nat ->
  cut bins labels x = nth_error labels i <-> in_bucket bins i x.
Proof.
  intros Hs Hlen Hnd Hx Hi.
  rewrite <- (searchsorted_right_bucket bins x i Hs Hx) by lia.
  unfold cut. rewrite Hx. cbn [orb].
  destruct (nth_error labels i) as [l|] eqn:El;
    [| apply nth_error_None in El; lia].
  split.
  - destruct (Nat.eqb_spec (searchsorted_right bins x) (length bins)) as [_ | Hn];
      [discriminate |].
    destruct (Nat.eqb_spec (searchsorted_right bins x) 0) as [_ | Hz];
      [discriminate |].
    cbn [orb]. intro H. rewrite <- El in H.
    assert (Hj : (searchsorted_right bins x - 1 < length labels)%nat).
    { apply nth_error_Some. rewrite H, El. discriminate. }
    pose proof (proj1 (NoDup_nth_error labels) Hnd _ _ Hj H). lia.
  - intros ->.
    destruct (Nat.eqb_spec (S i) (length bins)) as [E | _]; [lia |].
    cbn [orb Nat.eqb]. rewrite Nat.sub_1_r. exact El.
Qed.

(** ** C1: the buckets partition the finite values *)

Lemma cut_age_total (q : Q) :
  exists i, (i < 4)%nat /\
    cut age_bins_edges age_bins_labels (Fin q) = nth_error age_bins_labels i.
Proof.
  unfold cut, searchsorted_right, age_bins_edges, age_bins_labels. simpl.
  edges q; simpl; try (exfalso; lra).
  - exists 3%nat. split; [lia | reflexivity].
  - exists 2%nat. split; [lia | reflexivity].
  - exists 1%nat. split; [lia | reflexivity].
  - exists 0%nat. split; [lia | reflexivity].
Qed.

Lemma NoDup_age_bins_labels : NoDup age_bins_labels.
Proof.
  unfold age_bins_labels.
  repeat (constructor; [simpl; intuition discriminate |]). constructor.
Qed.

Lemma NoDup_bins_labels : NoDup bins_labels.
Proof.
  unfold bins_labels.
  repeat (constructor; [simpl; intuition discriminate |]). constructor.
Qed.

Lemma cut_age_in_bucket (q : Q) (i : nat) :
  (i < 4)%nat ->
  cut age_bins_edges age_bins_labels (Fin q) = nth_error age_bins_labels i
  <-> in_bucket age_bins_edges i (Fin q).
Proof.
  intro Hi. apply cut_in_bucket;
    [reflexivity | reflexivity | apply NoDup_age_bins_labels | reflexivity
    | exact Hi].
Qed.

Lemma cut_bins_total (q : Q) :
  exists i, (i < 5)%nat /\
    cut bins_edges bins_labels (Fin q) = nth_error bins_labels i.
Proof.
  unfold cut, searchsorted_right, bins_edges, bins_labels. simpl.
  edges q; simpl; try (exfalso; lra).
  - exists 4%nat. split; [lia | reflexivity].
  - exists 3%nat. split; [lia | reflexivity].
  - exists 2%nat. split; [lia | reflexivity].
  - exists 1%nat. split; [lia | reflexivity].
  - exists 0%nat. split; [lia | reflexivity].
Qed.

Lemma cut_bins_in_bucket (q : Q) (i : nat) :
  (i < 5)%nat ->
  cut bins_edges bins_labels (Fin q) = nth_error bins_labels i
  <-> in_bucket bins_edges i (Fin q).
Proof.
  intro Hi. apply cut_in_bucket;
    [reflexivity | reflexivity | apply NoDup_bins_labels | reflexivity
    | exact Hi].
Qed.

Lemma cut_age_negative (q : Q) :
  q < 0 -> cut age_bins_edges age_bins_labels (Fin q) = Some "<1 an".
Proof.
  intro Hq.
  unfold cut, searchsorted_right, age_bins_edges, age_bins_labels. simpl.
  edges q; simpl; try (exfalso; lra). reflexivity.
Qed.

(** C1. For every finite value [q] and each of the two edge sets, [cut]
    gives the label of some bucket, and it gives the label of bucket [i] if
    and only if [edges[i] <= q < edges[i+1]], so that [q] lies in exactly
    one bucket; 500000 falls in "500k-1M", not in "<500k", and a negative
    age falls in "<1 an". *)
Theorem C1_cut_partition (q : Q) :
  (exists i, (i < 4)%nat /\
     cut age_bins_edges age_bins_labels (Fin q) = nth_error age_bins_labels i) /\
  (forall i, (i < 4)%nat ->
     (cut age_bins_edges age_bins_labels (Fin q) = nth_error age_bins_labels i
      <-> in_bucket age_bins_edges i (Fin q))) /\
  (exists i, (i < 5)%nat /\
     cut bins_edges bins_labels (Fin q) = nth_error bins_labels i) /\
  (forall i, (i < 5)%nat ->
     (cut bins_edges bins_labels (Fin q) = nth_error bins_labels i
      <-> in_bucket bins_edges i (Fin q))) /\
  cut bins_edges bins_labels (Fin 500000) = Some "500k-1M" /\
  cut bins_edges bins_labels (Fin 500000) <> Some "<500k" /\
  (q < 0 -> cut age_bins_edges age_bins_labels (Fin q) = Some "<1 an").
Proof.
  split; [apply cut_age_total |].
  split; [intros i Hi; apply cut_age_in_bucket, Hi |].
  split; [apply cut_bins_total |].
  split; [intros i Hi; apply cut_bins_in_bucket, Hi |].
  split; [reflexivity |].
  split; [discriminate |].
  apply cut_age_negative.
Qed.

(** A negative age of 3 years falls in "<1 an", in its bucket only. *)
Lemma C1_cut_partition_witness :
  cut age_bins_edges age_bins_labels (Fin (-3)) = Some "<1 an" /\
  in_bucket age_bins_edges 0 (Fin (-3)).
Proof.
  destruct (C1_cut_partition (-3)) as (_ & Hage & _ & _ & _ & _ & Hneg).
  split.
  - apply Hneg. reflexivity.
  - apply (Hage 0%nat); [lia | reflexivity].
Defined.

(** ** Tables by year *)

Lemma colonne_map {A : Type} (f : Z -> list A) (annees : list Z) (annee : Z) :
  In annee annees ->
  colonne (map (fun a => (a, f a)) annees) annee = Some (f annee).
Proof.
  unfold colonne. induction annees as [|a l IH]; simpl; [tauto |].
  intros [-> | Hin].
  - rewrite Z.eqb_refl. reflexivity.
  - destruct (Z.eqb_spec a annee) as [-> | _]; [reflexivity | auto].
Qed.

Lemma list_sum_cons (n : nat) (l : list nat) :
  list_sum (n :: l) = (n + list_sum l)%nat.
Proof. reflexivity. Qed.

Lemma list_sum_map_add {A : Type} (f g : A -> nat) (l : list A) :
  list_sum (map (fun x => f x + g x)%nat l)
  = (list_sum (map f l) + list_sum (map g l))%nat.
Proof. induction l as [|x l IH]; simpl; lia. Qed.

Lemma value_counts_sum (labels : list string) (tranches : list (option string)) :
  list_sum (value_counts labels tranches)
  = list_sum (map (touche labels) tranches).
Proof.
  unfold value_counts.
  induction tranches as [|t ts IH]; simpl.
  - induction labels; simpl; auto.
  - rewrite <- IH. unfold touche. rewrite <- list_sum_map_add.
    f_equal. apply map_ext. intro l. fold (porte l t).
    destruct (porte l t); reflexivity.
Qed.

Lemma value_counts_length (labels : list string) (tranches : list (option string)) :
  length (value_counts labels tranches) = length labels.
Proof. unfold value_counts. apply length_map. Qed.

Lemma list_sum_ones {A : Type} (f : A -> nat) (l : list A) :
  (forall x, In x l -> f x = 1%nat) -> list_sum (map f l) = length l.
Proof.
  induction l as [|x l IH]; simpl; intro H; [reflexivity |].
  rewrite H by auto. rewrite IH by auto. reflexivity.
Qed.

(** A positive amount other than [+inf] is counted in exactly one row. *)
Lemma touche_montant (x : fval) :
  fgt x zero = true -> x <> PInf ->
  touche bins_labels (cut bins_edges bins_labels x) = 1%nat.
Proof.
  destruct x as [| |q|]; try discriminate; [|congruence].
  intros Hq _. apply fgt_zero_Fin in Hq.
  unfold cut, searchsorted_right, bins_edges, bins_labels. simpl.
  edges q; simpl; try (exfalso; lra); reflexivity.
Qed.

(** ** C2: the amount-by-year table *)


Lemma df_tranches_colonne (df : list App.Projet) (annee : Z) :
  In annee App.annees_levée ->
  colonne (App.df_tranches df) annee
  = Some (value_counts bins_labels
            (map (cut bins_edges bins_labels)
                 (map (App.montant annee) (filter (App.mask_lev annee) df)))).
Proof.
  intro Hin. unfold App.df_tranches.
  apply (colonne_map
           (fun a => value_counts bins_labels
                       (map (cut bins_edges bins_labels)
                            (map (App.montant a) (filter (App.mask_lev a) df))))).
  exact Hin.
Qed.



(** ** C3: the percentage view *)

Lemma Qmake_of_nat (n t : nat) :
  t <> 0%nat ->
  Z.of_nat n # Pos.of_nat t == inject_Z (Z.of_nat n) / inject_Z (Z.of_nat t).
Proof.
  intro Ht. rewrite Qmake_Qdiv. 
  replace (Z.pos (Pos.of_nat t)) with (Z.of_nat t); [reflexivity |].
  rewrite <- (Nat2Pos.id t) at 1 by exact Ht.
  apply positive_nat_Z.
Qed.










Lemma Forall2_map_r {A B C : Type} (R : A -> C -> Prop) (f : B -> C)
  (l : list A) (l' : list B) :
  Forall2 (fun a b => R a (f b)) l l' -> Forall2 R l (map f l').
Proof. induction 1; simpl; constructor; auto. Qed.



(** ** C4: the summary statistics *)












(** ** C5: a filter that keeps no row *)

(** C5, as stated, fails: no project of [table_exemple] is labelled
    Deeptech, and under that filter the page shows the number 0 and a
    warning, and neither an age table, nor an amount table, nor a chart. *)
Lemma C5_counterexample :
  App.df_filtre projets_exemple App.Deeptech App.Oui = [] /\
  App.analyse_par_filtre projets_exemple App.Deeptech App.Oui App.AnneeRCS
  = [App.NombreRetenus 0;
     App.Avertissement "Aucun projet correspondant à ce filtre."] /\
  (forall t,
      ~ In (App.TableAge t)
           (App.analyse_par_filtre projets_exemple App.Deeptech App.Oui
                                   App.AnneeRCS)) /\
  (forall t,
      ~ In (App.TableTranches t)
           (App.analyse_par_filtre projets_exemple App.Deeptech App.Oui
                                   App.AnneeRCS)).
Proof.
  assert (H : App.analyse_par_filtre projets_exemple App.Deeptech App.Oui
                                     App.AnneeRCS
              = [App.NombreRetenus 0;
                 App.Avertissement "Aucun projet correspondant à ce filtre."])
    by (vm_compute; reflexivity).
  split; [vm_compute; reflexivity |].
  split; [exact H |].
  rewrite H.
  split; intros t [Ht | [Ht | []]]; discriminate.
Qed.

(** C5, amended. A filter that keeps no row does not make the page fail:
    [analyse_par_filtre] shows the number 0 and the warning, and stops
    there; the block on the origin shows the number 0 alone.  No table and
    no chart is built for such a filter. *)
Theorem C5_filtre_vide (df : list App.Projet) (a : App.annee_ref) :
  (forall c ch,
      App.df_filtre df c ch = [] ->
      App.analyse_par_filtre df c ch a
      = [App.NombreRetenus 0;
         App.Avertissement "Aucun projet correspondant à ce filtre."]) /\
  (forall ch,
      App.df_exoendo df ch = [] ->
      App.analyse_exoendo df ch a = [App.NombreRetenus 0]).
Proof.
  split.
  - intros c ch H. unfold App.analyse_par_filtre. rewrite H. reflexivity.
  - intros ch H. unfold App.analyse_exoendo. rewrite H. reflexivity.
Qed.

(** The Deeptech filter on [table_exemple]. *)
Lemma C5_filtre_vide_witness :
  App.analyse_par_filtre projets_exemple App.Deeptech App.Oui App.AnneeRCS
  = [App.NombreRetenus 0;
     App.Avertissement "Aucun projet correspondant à ce filtre."].
Proof.
  apply (C5_filtre_vide projets_exemple App.AnneeRCS).
  vm_compute. reflexivity.
Defined.

(** ** C6: missing columns *)

Lemma existsb_eqb_In (c : string) (l : list string) :
  existsb (String.eqb c) l = true <-> In c l.
Proof.
  rewrite existsb_exists. split.
  - intros (x & Hx & E). apply String.eqb_eq in E. subst. exact Hx.
  - intro H. exists c. split; [exact H | apply String.eqb_refl].
Qed.

Lemma missing_cols_In (df : DataFrame) (c : string) :
  In c (App.missing_cols df)
  <-> In c App.required_columns /\ ~ In c (columns df).
Proof.
  unfold App.missing_cols. rewrite filter_In, negb_true_iff.
  rewrite <- (existsb_eqb_In c (columns df)).
  destruct (existsb (String.eqb c) (columns df)); intuition congruence.
Qed.

(** C6. The list of missing columns holds exactly the required columns
    that the table lacks.  When a required column is absent the run stops
    on that list, whatever the cells hold (no coercion is attempted); when
    none is absent the run does not stop on missing columns. *)
Theorem C6_missing_cols (df : DataFrame) (w : App.widgets) :
  (forall c, In c (App.missing_cols df)
             <-> In c App.required_columns /\ ~ In c (columns df)) /\
  ((exists c, In c App.required_columns /\ ~ In c (columns df)) ->
   forall lignes,
     App.app {| columns := columns df; rows := lignes |} w
     = App.Arret (App.missing_cols df)) /\
  ((forall c, In c App.required_columns -> In c (columns df)) ->
   forall m, App.app df w <> App.Arret m).
Proof.
  split; [apply missing_cols_In |]. split.
  - intros (c & Hreq & Habs) lignes.
    assert (Hin : In c (App.missing_cols df)) by (apply missing_cols_In; auto).
    unfold App.app.
    change (App.missing_cols {| columns := columns df; rows := lignes |})
      with (App.missing_cols df).
    destruct (App.missing_cols df) as [|x l]; [destruct Hin | reflexivity].
  - intros Hall m.
    assert (Hnil : App.missing_cols df = []).
    { destruct (App.missing_cols df) as [|x l] eqn:E; [reflexivity |].
      assert (Hx : In x (App.missing_cols df)) by (rewrite E; left; reflexivity).
      apply missing_cols_In in Hx. destruct Hx as [Hreq Habs].
      exfalso. apply Habs, Hall, Hreq. }
    unfold App.app. rewrite Hnil.
    destruct (App.pretraitement (rows df)); [| discriminate].
    destruct (App.stats l); discriminate.
Qed.

(** [table_incomplete] stops on its twelve missing columns, whatever its
    cells hold. *)
Lemma C6_missing_cols_witness :
  App.app table_incomplete widgets_defaut
  = App.Arret
      [ "Année entrée incubation"; "Année de primolevée";
        "Montant 2021 (si >100K)"; "Montant 2022 (si >100K)";
        "Montant 2023 (si >100K)"; "Montant 2024 (si >100K)";
        "Indus+Bioéco"; "Numérique";
        "EXOGENE"; "ENDOGENE";
        "Le projet est-il labellisé Deeptech par la BPI ?";
        "Lien recherche publique fr?" ].
Proof.
  destruct (C6_missing_cols table_incomplete widgets_defaut) as (_ & H & _).
  assert (Hex : exists c, In c App.required_columns
                          /\ ~ In c (columns table_incomplete)).
  { exists "EXOGENE". split.
    - apply existsb_eqb_In. reflexivity.
    - simpl. intros [E | [E | []]]; discriminate E. }
  exact (H Hex (rows table_incomplete)).
Defined.

(** ** C7: the coercions *)






Lemma cut_age_NaN : cut age_bins_edges age_bins_labels NaN = None.
Proof. reflexivity. Qed.




(** ** C8: the order of the criteria *)

Section Criteres.

Context {A : Type}.

Implicit Types (c : A -> bool) (cs : list (A -> bool)) (df : list A).

Lemma filter_conj c c' df :
  filter c' (filter c df) = filter (fun row => c row && c' row) df.
Proof.
  induction df as [|row df IH]; simpl; [reflexivity |].
  destruct (c row); simpl; [destruct (c' row) |]; rewrite IH; reflexivity.
Qed.

Lemma filter_vrai df : filter (fun _ => true) df = df.
Proof. induction df as [|row df IH]; simpl; congruence. Qed.

(** Applying the criteria one after the other keeps the rows that meet
    them all. *)
Lemma appliquer_conjonction cs df :
  appliquer cs df = filter (conjonction cs) df.
Proof.
  unfold appliquer. revert df.
  induction cs as [|c cs IH]; intro df; simpl.
  - symmetry. apply filter_vrai.
  - rewrite IH, filter_conj. reflexivity.
Qed.

Lemma conjonction_perm cs cs' (row : A) :
  Permutation cs cs' -> conjonction cs row = conjonction cs' row.
Proof.
  unfold conjonction.
  induction 1 as [| c l l' _ IH | c c' l | l l' l'' _ IH1 _ IH2]; simpl.
  - reflexivity.
  - rewrite IH. reflexivity.
  - destruct (c row), (c' row); reflexivity.
  - congruence.
Qed.

Lemma appliquer_perm cs cs' df :
  Permutation cs cs' -> appliquer cs df = appliquer cs' df.
Proof.
  intro H. rewrite !appliquer_conjonction.
  apply filter_ext. intro row. apply conjonction_perm, H.
Qed.

Lemma appliquer_app cs cs' df :
  appliquer (cs ++ cs') df = appliquer cs' (appliquer cs df).
Proof. unfold appliquer. apply fold_left_app. Qed.

End Criteres.

(** The frame [filtre] of [app2.py] is its four criteria applied in the
    order of the script. *)
Lemma filtre_appliquer (df : list App2.Ligne) (s : App2.sélection) :
  App2.filtre df s = appliquer (critères s) df.
Proof.
  destruct s as [fs dt li oe].
  unfold App2.filtre, critères, appliquer, App2.critère_filière,
    App2.critère_deeptech, App2.critère_lien, App2.critère_origine.
  cbn [fold_left App2.selected_filière App2.deeptech_uniquement App2.lien
       App2.endo_exo].
  destruct fs as [|f fs], dt, li, oe; rewrite ?filter_vrai; reflexivity.
Qed.

(** The rows [analyse_par_filtre] of [app.py] keeps are those that meet its
    three-way criterion. *)
Lemma df_filtre_critère (df : list App.Projet) (c : App.filtre_col)
  (ch : App.choix) :
  App.df_filtre df c ch = filter (critère_app c ch) df.
Proof.
  destruct ch; unfold App.df_filtre, critère_app;
    [symmetry; apply filter_vrai | reflexivity | reflexivity].
Qed.

(** C8. The rows [app2.py] keeps for a selection are the rows that meet the
    conjunction of its four criteria; applying these criteria in any other
    order keeps the same rows; and for any criteria on the rows, applying
    them in sequence is commutative and associative.  The three-way
    criteria of [app.py] commute in the same way. *)
Theorem C8_ordre_des_criteres (df : list App2.Ligne) (s : App2.sélection) :
  App2.filtre df s = filter (conjonction (critères s)) df /\
  (forall cs, Permutation cs (critères s) -> appliquer cs df = App2.filtre df s) /\
  (forall cs1 cs2 : list (App2.Ligne -> bool),
      appliquer (cs1 ++ cs2) df = appliquer (cs2 ++ cs1) df) /\
  (forall cs1 cs2 cs3 : list (App2.Ligne -> bool),
      appliquer cs3 (appliquer (cs1 ++ cs2) df)
      = appliquer (cs2 ++ cs3) (appliquer cs1 df)) /\
  (forall (projets : list App.Projet) c1 ch1 c2 ch2,
      App.df_filtre (App.df_filtre projets c1 ch1) c2 ch2
      = App.df_filtre (App.df_filtre projets c2 ch2) c1 ch1).
Proof.
  split; [rewrite filtre_appliquer; apply appliquer_conjonction |].
  split.
  { intros cs H. rewrite filtre_appliquer. apply appliquer_perm, H. }
  split.
  { intros cs1 cs2. apply appliquer_perm, Permutation_app_comm. }
  split.
  { intros cs1 cs2 cs3. rewrite <- !appliquer_app, app_assoc. reflexivity. }
  intros projets c1 ch1 c2 ch2. rewrite !df_filtre_critère.
  change (filter (critère_app c2 ch2) (filter (critère_app c1 ch1) projets))
    with (appliquer [critère_app c1 ch1; critère_app c2 ch2] projets).
  change (filter (critère_app c1 ch1) (filter (critère_app c2 ch2) projets))
    with (appliquer [critère_app c2 ch2; critère_app c1 ch1] projets).
  apply appliquer_perm, perm_swap.
Qed.

(** Origin first, then the sectors: the rows of [table_exemple] that
    [app2.py] keeps for [sélection_exemple]. *)
Lemma C8_ordre_des_criteres_witness :
  appliquer [App2.critère_origine sélection_exemple;
             App2.critère_filière sélection_exemple;
             App2.critère_deeptech sélection_exemple;
             App2.critère_lien sélection_exemple]
            (App2.charger table_exemple)
  = App2.filtre (App2.charger table_exemple) sélection_exemple.
Proof.
  destruct (C8_ordre_des_criteres (App2.charger table_exemple) sélection_exemple)
    as (_ & H & _).
  apply H. unfold critères.
  apply (Permutation_cons_append
           [App2.critère_filière sélection_exemple;
            App2.critère_deeptech sélection_exemple;
            App2.critère_lien sélection_exemple]
           (App2.critère_origine sélection_exemple)).
Defined.

(** ** C9: rows whose reference year is unknown *)


Lemma table_age_colonne (df : list App.Projet) (a : App.annee_ref) (annee : Z) :
  In annee App.annees_levée ->
  colonne (App.table_age df a) annee
  = Some (value_counts age_bins_labels
            (map (cut age_bins_edges age_bins_labels)
                 (map (fun p => fsub (of_Z annee) (App.ref a p))
                      (filter (App.mask_lev annee) df)))).
Proof.
  intro Hin. unfold App.table_age.
  apply (colonne_map
           (fun y => value_counts age_bins_labels
                       (map (cut age_bins_edges age_bins_labels)
                            (map (fun p => fsub (of_Z y) (App.ref a p))
                                 (filter (App.mask_lev y) df))))).
  exact Hin.
Qed.

Section Comptes.

Variable labels : list string.

Implicit Types (t : option string) (ts : list (option string)).




End Comptes.









(** ** C10: the two scripts count funding rounds differently *)

(** In [app.py] the rounds of a year are the rows whose amount, once unknown
    cells are replaced by 0, is above 0. *)
Lemma nb_projets_app (df : list App.Projet) (annee : Z) (s : App.stat) :
  App.stats_annee df annee = Some s ->
  App.nb_projets s
  = length (filter (fun p => fgt (App.montant annee p) zero) df).
Proof.
  unfold App.stats_annee.
  destruct (int_of_float _); [| discriminate].
  intro H. injection H as <-. reflexivity.
Qed.

Lemma levées_app (df1 df2 : list App2.Ligne) :
  App2.levées (df1 ++ df2) = App2.levées df1 ++ App2.levées df2.
Proof. unfold App2.levées. apply flat_map_app. Qed.

(** In [app2.py] the rounds of 2021 are the rows whose 2021 amount is not
    NaN, a 0 included. *)
Lemma groupe_2021 (df : list App2.Ligne) :
  App2.groupe (App2.levées df) 2021
  = filter App2.notnull (map App2.montant_2021 df).
Proof.
  unfold App2.groupe, App2.levées.
  induction df as [|row df IH]; [reflexivity |].
  cbn [flat_map map]. rewrite filter_app, map_app, IH.
  cbn [App2.year_cols App2.enumerate flat_map fst snd].
  destruct (App2.notnull (App2.montant_2021 row)) eqn:E1,
           (App2.notnull (App2.montant_2022 row)),
           (App2.notnull (App2.montant_2023 row)),
           (App2.notnull (App2.montant_2024 row));
    simpl; rewrite E1; reflexivity.
Qed.

(** With no round at all, the summary of [app2.py] raises. *)
Lemma synthèse_vide (df : list App2.Ligne) :
  App2.levées df = [] -> App2.synthèse df = None.
Proof. unfold App2.synthèse. intros ->. reflexivity. Qed.

(** C10. There is a table on which the two scripts count the rounds of a
    year differently: on [table_exemple], [app.py] counts one round in 2021,
    the amount above 0, and [app2.py] counts two, the amount of 0 of
    project B being a round for it. *)
Theorem C10_variantes_differentes :
  exists (df : DataFrame) (annee : Z) projets t1 s1 t2 s2,
    App.missing_cols df = [] /\
    App.pretraitement (rows df) = Some projets /\
    App.stats projets = Some t1 /\
    In (annee, s1) t1 /\
    App2.synthèse (App2.charger df) = Some t2 /\
    In (annee, s2) t2 /\
    App.nb_projets s1 = 1%nat /\
    App2.nb_levées s2 = 2%nat /\
    App.nb_projets s1 <> App2.nb_levées s2.
Proof.
  exists table_exemple, 2021%Z.
  eexists. eexists. eexists. eexists. eexists.
  split; [vm_compute; reflexivity |].
  split; [vm_compute; reflexivity |].
  split; [vm_compute; reflexivity |].
  split; [left; reflexivity |].
  split; [vm_compute; reflexivity |].
  split; [left; reflexivity |].
  split; [reflexivity |]. split; [reflexivity |].
  simpl. discriminate.
Qed.

(** * Further properties of the two scripts *)

(** ** Sums of amounts above 0 *)

Lemma fgt_zero_cases (x : fval) :
  fgt x zero = true -> x = PInf \/ exists q, x = Fin q /\ 0 < q.
Proof.
  destruct x as [| |q|]; try discriminate; intro H.
  - right. exists q. split; [reflexivity | apply fgt_zero_Fin, H].
  - left. reflexivity.
Qed.

Lemma somme_positifs (l : list fval) :
  (forall x, In x l -> fgt x zero = true) ->
  filter (fun x => negb (isnan x)) l = l /\
  ((In PInf l /\ fold_right fadd zero l = PInf) \/
   (~ In PInf l /\ exists q, fold_right fadd zero l = Fin q /\ 0 <= q)).
Proof.
  induction l as [|x l IH]; intro H.
  - split; [reflexivity |]. right. split; [tauto |].
    exists 0. split; [reflexivity | lra].
  - destruct (IH (fun y Hy => H y (or_intror Hy))) as [Hf Hs].
    destruct (fgt_zero_cases x (H x (or_introl eq_refl))) as [-> | (q & -> & Hq)].
    + split; [simpl; rewrite Hf; reflexivity |]. left.
      split; [left; reflexivity |]. simpl.
      destruct Hs as [[_ ->] | [_ (q' & -> & _)]]; reflexivity.
    + split; [simpl; rewrite Hf; reflexivity |].
      destruct Hs as [[Hin Hs] | [Hnot (q' & Hs & Hq')]].
      * left. split; [right; exact Hin |]. simpl. rewrite Hs. reflexivity.
      * right. split; [intros [E | Hin]; [discriminate | tauto] |].
        exists (q + q'). split; [simpl; rewrite Hs; reflexivity | lra].
Qed.

Lemma masque_positifs (df : list App.Projet) (annee : Z) (x : fval) :
  In x (map (App.montant annee) (filter (App.mask_lev annee) df)) ->
  fgt x zero = true.
Proof.
  intro H. apply in_map_iff in H. destruct H as (p & <- & Hp).
  apply filter_In in Hp. apply Hp.
Qed.

Lemma PInf_qualifiant (df : list App.Projet) (annee : Z) :
  In PInf (map (App.montant annee) (filter (App.mask_lev annee) df))
  <-> exists p, In p df /\ App.montant annee p = PInf.
Proof.
  rewrite in_map_iff. split.
  - intros (p & E & Hp). apply filter_In in Hp. exists p. tauto.
  - intros (p & Hp & E). exists p. split; [exact E |].
    apply filter_In. split; [exact Hp |].
    unfold App.mask_lev. rewrite E. reflexivity.
Qed.

(** The summary of a year raises exactly when an amount of that year is
    [+inf]. *)
Lemma stats_annee_None (df : list App.Projet) (annee : Z) :
  App.stats_annee df annee = None
  <-> exists p, In p df /\ App.montant annee p = PInf.
Proof.
  rewrite <- PInf_qualifiant. unfold App.stats_annee, fsum.
  destruct (somme_positifs _ (masque_positifs df annee)) as [-> Hs].
  destruct Hs as [[Hin ->] | [Hnot (q & -> & _)]]; simpl.
  - tauto.
  - split; [discriminate | tauto].
Qed.


(** ** The coercions over a whole table *)


Lemma pretraitement_Forall2 (lignes : list Row) (projets : list App.Projet) :
  App.pretraitement lignes = Some projets ->
  Forall2 (fun r p => App.pretraitement_ligne r = Some p) lignes projets.
Proof.
  revert projets. induction lignes as [|r l IH]; simpl; intros projets H.
  - injection H as <-. constructor.
  - destruct (App.pretraitement_ligne r) eqn:Er; [| discriminate].
    destruct (App.pretraitement l) eqn:El; [| discriminate].
    injection H as <-. constructor; [exact Er | apply IH; reflexivity].
Qed.



(** The amount of a year on a coerced row, from the cell of the sheet. *)
Lemma montant_pretraitement (r : Row) (p : App.Projet) (annee : Z) :
  App.pretraitement_ligne r = Some p ->
  In annee App.annees_levée ->
  App.montant annee p = App.coerce_montant (r (nom_montant annee)).
Proof.
  unfold App.pretraitement_ligne.
  repeat match goal with
         | |- match App.coerce_flag ?c with _ => _ end = _ -> _ =>
             destruct (App.coerce_flag c); [| discriminate]
         end.
  intro H. injection H as <-.
  intros [<- | [<- | [<- | [<- | []]]]]; reflexivity.
Qed.


(** ** When the run of [app.py] ends on an exception *)


(** ** The age table *)

Lemma list_sum_indic {A : Type} (f : A -> nat) (g : A -> bool) (l : list A) :
  (forall x, In x l -> f x = if g x then 1%nat else 0%nat) ->
  list_sum (map f l) = length (filter g l).
Proof.
  induction l as [|x l IH]; intro H; [reflexivity |].
  cbn [map filter]. rewrite list_sum_cons, (H x (or_introl eq_refl)).
  rewrite IH by (intros y Hy; apply H; right; exact Hy).
  destruct (g x); reflexivity.
Qed.

(** An age is counted in one row of the age table when the reference year
    is neither NaN nor [-inf], and in none otherwise. *)
Lemma touche_age (annee : Z) (r : fval) :
  touche age_bins_labels
         (cut age_bins_edges age_bins_labels (fsub (of_Z annee) r))
  = if ref_comptée r then 1%nat else 0%nat.
Proof.
  destruct r as [| |q|]; try reflexivity.
  unfold fsub, of_Z. cbn [fneg fadd ref_comptée].
  destruct (cut_age_total (inject_Z annee + - q)) as (i & Hi & ->).
  destruct i as [|[|[|[|i]]]]; try lia; reflexivity.
Qed.

Lemma table_age_somme (df : list App.Projet) (a : App.annee_ref) (annee : Z) :
  list_sum (value_counts age_bins_labels
              (map (cut age_bins_edges age_bins_labels)
                   (map (fun p => fsub (of_Z annee) (App.ref a p))
                        (filter (App.mask_lev annee) df))))
  = length (filter (fun p => ref_comptée (App.ref a p))
                   (filter (App.mask_lev annee) df)).
Proof.
  rewrite value_counts_sum, !map_map.
  apply list_sum_indic. intros p _. apply touche_age.
Qed.

(** X2. For every year of [annees_levée] the age table has a column of
    four cells, and the column sums to the number of rows with an amount
    above 0 that year whose reference year is neither NaN nor [-inf]: these
    rows, and no other, are in an age bucket (a reference year of [+inf]
    gives the first bucket). *)
Theorem X2_table_age_somme (df : list App.Projet) (a : App.annee_ref)
  (annee : Z) :
  In annee App.annees_levée ->
  exists col,
    colonne (App.table_age df a) annee = Some col /\
    length col = 4%nat /\
    list_sum col
    = length (filter (fun p => ref_comptée (App.ref a p))
                     (filter (App.mask_lev annee) df)).
Proof.
  intro Hin. eexists. split; [apply table_age_colonne, Hin |].
  split; [rewrite value_counts_length; reflexivity | apply table_age_somme].
Qed.

(** In 2022 nobody of [table_exemple] is in an age bucket: the one round
    of that year has no registration year. *)
Lemma X2_table_age_somme_witness :
  exists col,
    colonne (App.table_age projets_exemple App.AnneeRCS) 2022 = Some col /\
    length col = 4%nat /\
    list_sum col = 0%nat.
Proof.
  destruct (X2_table_age_somme projets_exemple App.AnneeRCS 2022)
    as (col & Hcol & Hlen & Hsum); [simpl; tauto |].
  exists col. split; [exact Hcol |]. split; [exact Hlen |].
  rewrite Hsum. vm_compute. reflexivity.
Defined.

(** ** What a page shows *)

Lemma df_tranches_somme (df : list App.Projet) (annee : Z) :
  (forall p, In p df -> App.montant annee p <> PInf) ->
  list_sum (value_counts bins_labels
              (map (cut bins_edges bins_labels)
                   (map (App.montant annee) (filter (App.mask_lev annee) df))))
  = length (filter (App.mask_lev annee) df).
Proof.
  intro Hfin. rewrite value_counts_sum, !map_map, list_sum_ones; [reflexivity |].
  intros p Hp. apply filter_In in Hp. destruct Hp as [Hp Hmask].
  apply touche_montant; [exact Hmask | apply Hfin, Hp].
Qed.

Lemma stats_boucle_In (df : list App.Projet) (annees : list Z)
  (t : list (Z * App.stat)) (annee : Z) (s : App.stat) :
  App.stats_boucle df annees = Some t ->
  In (annee, s) t ->
  In annee annees /\ App.stats_annee df annee = Some s.
Proof.
  revert t. induction annees as [|a l IH]; simpl; intros t Ht Hin.
  - injection Ht as <-. destruct Hin.
  - destruct (App.stats_annee df a) eqn:Ea; [| discriminate].
    destruct (App.stats_boucle df l) eqn:El; [| discriminate].
    injection Ht as <-. destruct Hin as [E | Hin].
    + injection E as <- <-. tauto.
    + destruct (IH _ eq_refl Hin). tauto.
Qed.

(** X3. On every page that [app.py] displays, the first number is the
    number of rows of the sheet, and the summary, the age table and the
    amount table agree year by year: the number of projects of the summary
    is the total of the year's column in the amount table, and the total of
    the year's column in the age table is at most that number. *)
Theorem X3_page_coherente (df : DataFrame) (w : App.widgets)
  (out : list App.sortie) :
  App.app df w = App.Page out ->
  exists s ta tt g rest,
    out = App.TotalProjets (length (rows df)) :: App.TableStats s
          :: App.TableAge ta :: App.TableTranches tt :: App.Graphique g
          :: rest /\
    map fst s = App.annees_levée /\
    forall annee st,
      In (annee, st) s ->
      exists ages montants,
        colonne ta annee = Some ages /\
        colonne tt annee = Some montants /\
        list_sum montants = App.nb_projets st /\
        (list_sum ages <= App.nb_projets st)%nat.
Proof.
  unfold App.app.
  destruct (App.missing_cols df); [| discriminate].
  destruct (App.pretraitement (rows df)) as [projets|] eqn:Ep; [| discriminate].
  destruct (App.stats projets) as [s|] eqn:Es; [| discriminate].
  intro H. injection H as <-.
  pose proof (pretraitement_Forall2 _ _ Ep) as HF.
  rewrite <- (Forall2_length HF).
  do 5 eexists. split; [reflexivity |]. unfold App.stats in Es. split.
  - clear -Es. revert s Es. generalize App.annees_levée as annees.
    induction annees as [|a l IH]; simpl; intros s Es.
    + injection Es as <-. reflexivity.
    + destruct (App.stats_annee projets a); [| discriminate].
      destruct (App.stats_boucle projets l); [| discriminate].
      injection Es as <-. simpl. f_equal. apply IH. reflexivity.
  - intros annee st Hin.
    destruct (stats_boucle_In _ _ _ _ _ Es Hin) as [Ha Hst].
    assert (Hfin : forall p, In p projets -> App.montant annee p <> PInf).
    { intros p Hp E.
      assert (Habs : App.stats_annee projets annee = None)
        by (apply stats_annee_None; exists p; tauto).
      congruence. }
    do 2 eexists.
    split; [apply table_age_colonne, Ha |].
    split; [apply df_tranches_colonne, Ha |].
    rewrite (nb_projets_app _ _ _ Hst).
    fold (App.mask_lev annee).
    split; [apply df_tranches_somme, Hfin |].
    rewrite table_age_somme. apply filter_length_le.
Qed.

(** The page of [table_exemple] with every filter on "Tous". *)
Lemma X3_page_coherente_witness :
  exists out s ta tt g rest,
    App.app table_exemple widgets_defaut = App.Page out /\
    out = App.TotalProjets 3 :: App.TableStats s
          :: App.TableAge ta :: App.TableTranches tt :: App.Graphique g
          :: rest.
Proof.
  destruct (App.app table_exemple widgets_defaut) as [m | | out] eqn:E;
    try (vm_compute in E; discriminate E).
  destruct (X3_page_coherente table_exemple widgets_defaut out E)
    as (s & ta & tt & g & rest & Hout & _).
  exists out, s, ta, tt, g, rest. split; [reflexivity | exact Hout].
Defined.

(** ** The selections of a flag filter *)

Lemma filter_trois {A : Type} (f g : A -> bool) (l : list A) :
  (forall x, f x = true -> g x = false) ->
  (length (filter f l) + length (filter g l)
   + length (filter (fun x => negb (f x) && negb (g x)) l))%nat
  = length l.
Proof.
  intro Hfg. induction l as [|x l IH]; [reflexivity |].
  cbn [filter]. specialize (Hfg x).
  destruct (f x), (g x); simpl;
    first [lia | discriminate (Hfg eq_refl)].
Qed.

(** X4. The selections "Oui" and "Non" of a flag of [app.py] keep the
    rows whose flag is 1 and the rows whose flag is 0.  Together with the
    rows whose flag is another integer, which neither keeps, they make up
    all the rows. *)
Theorem X4_oui_non (df : list App.Projet) (c : App.filtre_col) :
  (forall p, In p (App.df_filtre df c App.Oui)
             <-> In p df /\ App.flag c p = 1%Z) /\
  (forall p, In p (App.df_filtre df c App.Non)
             <-> In p df /\ App.flag c p = 0%Z) /\
  (length (App.df_filtre df c App.Oui) + length (App.df_filtre df c App.Non)
   + length (filter (fun p => negb (App.flag c p =? 1)%Z
                              && negb (App.flag c p =? 0)%Z) df))%nat
  = length df.
Proof.
  unfold App.df_filtre. split; [| split].
  - intro p. rewrite filter_In, Z.eqb_eq. tauto.
  - intro p. rewrite filter_In, Z.eqb_eq. tauto.
  - apply filter_trois. intros p H. apply Z.eqb_eq in H. rewrite H. reflexivity.
Qed.

(** ** Tables of a selection and of its complement *)

Lemma add_col_map {A : Type} (f g : A -> nat) (l : list A) :
  add_col (map f l) (map g l) = map (fun x => (f x + g x)%nat) l.
Proof.
  unfold add_col. induction l as [|x l IH]; [reflexivity |].
  simpl. f_equal. exact IH.
Qed.

Lemma compte_partage {A B : Type} (P : B -> bool) (g : A -> B)
  (m c : A -> bool) (l : list A) :
  length (filter P (map g (filter m l)))
  = (length (filter P (map g (filter m (filter c l))))
     + length (filter P (map g (filter m (filter (fun x => negb (c x)) l)))))%nat.
Proof.
  induction l as [|x l IH]; [reflexivity |].
  cbn [filter]. destruct (c x); cbn [negb filter];
    destruct (m x); cbn [map filter]; try exact IH;
    destruct (P (g x)); cbn [length]; lia.
Qed.

Lemma value_counts_partage {A : Type} (labels : list string)
  (g : A -> option string) (m c : A -> bool) (l : list A) :
  value_counts labels (map g (filter m l))
  = add_col (value_counts labels (map g (filter m (filter c l))))
            (value_counts labels
               (map g (filter m (filter (fun x => negb (c x)) l)))).
Proof.
  unfold value_counts. rewrite add_col_map. apply map_ext. intro lab.
  apply compte_partage.
Qed.

Lemma df_filtre_non (df : list App.Projet) (c : App.filtre_col) :
  (forall p, In p df -> App.flag c p = 0%Z \/ App.flag c p = 1%Z) ->
  App.df_filtre df c App.Non
  = filter (fun p => negb (App.flag c p =? 1)%Z) df.
Proof.
  intro H. unfold App.df_filtre. apply filter_ext_in. intros p Hp.
  destruct (H p Hp) as [-> | ->]; reflexivity.
Qed.

(** X5. When every flag of a column is 0 or 1, the tables of the selection
    "Oui" and of the selection "Non" add up, cell by cell, to the tables of
    all the rows: so for the amount table and for the age table of every
    year. *)
Theorem X5_oui_plus_non (df : list App.Projet) (c : App.filtre_col)
  (a : App.annee_ref) (annee : Z) :
  In annee App.annees_levée ->
  (forall p, In p df -> App.flag c p = 0%Z \/ App.flag c p = 1%Z) ->
  (exists oui non,
      colonne (App.df_tranches (App.df_filtre df c App.Oui)) annee = Some oui /\
      colonne (App.df_tranches (App.df_filtre df c App.Non)) annee = Some non /\
      colonne (App.df_tranches df) annee = Some (add_col oui non)) /\
  (exists oui non,
      colonne (App.table_age (App.df_filtre df c App.Oui) a) annee = Some oui /\
      colonne (App.table_age (App.df_filtre df c App.Non) a) annee = Some non /\
      colonne (App.table_age df a) annee = Some (add_col oui non)).
Proof.
  intros Ha Hflag. rewrite (df_filtre_non df c Hflag).
  unfold App.df_filtre. split.
  - do 2 eexists. rewrite !df_tranches_colonne by exact Ha.
    split; [reflexivity |]. split; [reflexivity |]. f_equal.
    rewrite !map_map. apply value_counts_partage.
  - do 2 eexists. rewrite !table_age_colonne by exact Ha.
    split; [reflexivity |]. split; [reflexivity |]. f_equal.
    rewrite !map_map. apply value_counts_partage.
Qed.

(** The sector "Numérique" on [table_exemple] in 2021. *)
Lemma X5_oui_plus_non_witness :
  exists oui non,
    colonne (App.df_tranches
               (App.df_filtre projets_exemple App.Numerique App.Oui)) 2021
    = Some oui /\
    colonne (App.df_tranches
               (App.df_filtre projets_exemple App.Numerique App.Non)) 2021
    = Some non /\
    colonne (App.df_tranches projets_exemple) 2021 = Some (add_col oui non).
Proof.
  destruct (X5_oui_plus_non projets_exemple App.Numerique App.AnneeRCS 2021)
    as [H _]; [simpl; tauto | | exact H].
  intros p Hp. vm_compute in Hp.
  destruct Hp as [<- | [<- | [<- | []]]]; simpl; tauto.
Defined.

(** ** The order of the rows *)

Lemma filter_perm {A : Type} (f : A -> bool) (l l' : list A) :
  Permutation l l' -> Permutation (filter f l) (filter f l').
Proof.
  induction 1 as [| x l l' _ IH | x y l | l l' l'' _ IH1 _ IH2]; simpl.
  - constructor.
  - destruct (f x); [constructor |]; exact IH.
  - destruct (f x), (f y); try apply Permutation_refl.
    apply perm_swap.
  - eapply Permutation_trans; eassumption.
Qed.

Lemma value_counts_perm {A : Type} (labels : list string)
  (g : A -> option string) (m : A -> bool) (l l' : list A) :
  Permutation l l' ->
  value_counts labels (map g (filter m l))
  = value_counts labels (map g (filter m l')).
Proof.
  intro H. unfold value_counts. apply map_ext. intro lab.
  apply Permutation_length, filter_perm, Permutation_map, filter_perm, H.
Qed.

(** X6. The count tables do not depend on the order of the rows: two
    tables with the same rows in another order have the same amount table,
    the same age table and the same percentages. *)
Theorem X6_ordre_des_lignes (df df' : list App.Projet) (a : App.annee_ref) :
  Permutation df df' ->
  App.df_tranches df = App.df_tranches df' /\
  App.table_age df a = App.table_age df' a /\
  App.df_tranches_pct (App.df_tranches df)
  = App.df_tranches_pct (App.df_tranches df').
Proof.
  intro H.
  assert (Ht : App.df_tranches df = App.df_tranches df').
  { unfold App.df_tranches. apply map_ext. intro annee. f_equal.
    rewrite !map_map. apply value_counts_perm, H. }
  split; [exact Ht |]. split; [| rewrite Ht; reflexivity].
  unfold App.table_age. apply map_ext. intro annee. f_equal.
  rewrite !map_map. apply value_counts_perm, H.
Qed.

(** [table_exemple] read from the last row to the first. *)
Lemma X6_ordre_des_lignes_witness :
  App.df_tranches projets_exemple = App.df_tranches (rev projets_exemple) /\
  App.table_age projets_exemple App.AnneeRCS
  = App.table_age (rev projets_exemple) App.AnneeRCS.
Proof.
  destruct (X6_ordre_des_lignes projets_exemple (rev projets_exemple)
              App.AnneeRCS (Permutation_rev projets_exemple))
    as (H1 & H2 & _).
  split; [exact H1 | exact H2].
Defined.

(** ** Coercing twice *)



(** ** The summary of a year *)





(** ** The rounds of [app2.py], year by year *)

Lemma groupe_ligne (annee : Z) (row : App2.Ligne) :
  In annee [2021; 2022; 2023; 2024]%Z ->
  map snd
      (filter (fun e => Z.eqb (fst e) annee)
              (flat_map (fun im => if App2.notnull (snd im)
                                   then [((2021 + fst im)%Z, snd im)]
                                   else [])
                        (App2.enumerate 0%Z (App2.year_cols row))))
  = filter App2.notnull [montant_app2 annee row].
Proof.
  intros [<- | [<- | [<- | [<- | []]]]];
    unfold montant_app2, App2.notnull;
    cbn [App2.year_cols App2.enumerate flat_map fst snd];
    destruct (isnan (App2.montant_2021 row)) eqn:E1,
             (isnan (App2.montant_2022 row)) eqn:E2,
             (isnan (App2.montant_2023 row)) eqn:E3,
             (isnan (App2.montant_2024 row)) eqn:E4;
    simpl; rewrite ?E1, ?E2, ?E3, ?E4; reflexivity.
Qed.

(** The group of a year holds the amounts of that year that are not
    null, in the order of the rows. *)
Lemma groupe_annee (df : list App2.Ligne) (annee : Z) :
  In annee [2021; 2022; 2023; 2024]%Z ->
  App2.groupe (App2.levées df) annee
  = filter App2.notnull (map (montant_app2 annee) df).
Proof.
  intro Ha. unfold App2.groupe, App2.levées.
  induction df as [|row df IH]; [reflexivity |].
  cbn [flat_map map]. rewrite filter_app, map_app, IH.
  rewrite (groupe_ligne annee row Ha). simpl.
  destruct (App2.notnull (montant_app2 annee row)); reflexivity.
Qed.

Lemma montant_app2_charger (r : Row) (annee : Z) :
  In annee App.annees_levée ->
  montant_app2 annee (App2.charger_ligne r) = to_numeric (r (nom_montant annee)).
Proof. intros [<- | [<- | [<- | [<- | []]]]]; reflexivity. Qed.


Lemma length_si {A : Type} (b : bool) (x : A) (l : list A) :
  length (if b then x :: l else l) = ((if b then 1 else 0) + length l)%nat.
Proof. destruct b; reflexivity. Qed.

(** X9. On one sheet and for every year, the rounds of [app2.py] are the
    rounds of [app.py] and, besides, the rows whose amount is a number that
    is not above 0: every round counted by [app.py] is counted by [app2.py],
    and the two counts differ by the number of such rows. *)
Theorem X9_app_et_app2 (df : DataFrame) (projets : list App.Projet)
  (annee : Z) :
  In annee App.annees_levée ->
  App.pretraitement (rows df) = Some projets ->
  length (App2.groupe (App2.levées (App2.charger df)) annee)
  = (length (filter (App.mask_lev annee) projets)
     + length (filter (fun r =>
                         let x := to_numeric (r (nom_montant annee)) in
                         App2.notnull x && negb (fgt x zero))
                      (rows df)))%nat.
Proof.
  intros Ha Hp. rewrite (groupe_annee _ annee Ha).
  unfold App2.charger. rewrite map_map.
  pose proof (pretraitement_Forall2 _ _ Hp) as HF. clear Hp.
  induction HF as [|r p l l' Hrp _ IH]; [reflexivity |].
  cbn [map filter]. cbv zeta in *.
  rewrite (montant_app2_charger r annee Ha).
  unfold App.mask_lev at 1.
  rewrite (montant_pretraitement r p annee Hrp Ha).
  unfold App.coerce_montant, fillna.
  rewrite !length_si, IH.
  destruct (to_numeric (r (nom_montant annee))) as [| |q|]; simpl; try lia.
  destruct (Qle_bool q 0); simpl; lia.
Qed.

(** In 2021 on [table_exemple]: one round for [app.py], two for
    [app2.py], the second being the amount of 0 of project B. *)
Lemma X9_app_et_app2_witness :
  length (App2.groupe (App2.levées (App2.charger table_exemple)) 2021)
  = (length (filter (App.mask_lev 2021) projets_exemple) + 1)%nat.
Proof.
  apply (X9_app_et_app2 table_exemple projets_exemple 2021).
  - simpl. tauto.
  - vm_compute. reflexivity.
Defined.

(** ** The summary by year of [app2.py] *)

Lemma existsb_length {A : Type} (f : A -> bool) (l : list A) :
  existsb f l = (0 <? length (filter f l))%nat.
Proof.
  induction l as [|x l IH]; [reflexivity |].
  simpl. destruct (f x); [reflexivity | exact IH].
Qed.

Lemma filter_map_length {A B : Type} (f : B -> bool) (g : A -> B) (l : list A) :
  length (filter f (map g l)) = length (filter (fun x => f (g x)) l).
Proof.
  induction l as [|x l IH]; [reflexivity |].
  simpl. destruct (f (g x)); simpl; rewrite IH; reflexivity.
Qed.

(** The keys of the groups: the years in which some amount is not null. *)
Lemma clés_levées (df : list App2.Ligne) :
  App2.clés (App2.levées df)
  = filter (fun a => existsb (fun row => App2.notnull (montant_app2 a row)) df)
           [2021; 2022; 2023; 2024]%Z.
Proof.
  unfold App2.clés. apply filter_ext_in. intros a Ha.
  rewrite !existsb_length.
  rewrite <- (length_map snd). fold (App2.groupe (App2.levées df) a).
  rewrite (groupe_annee df a Ha), filter_map_length. reflexivity.
Qed.

Lemma levées_ligne_vide (row : App2.Ligne) :
  flat_map (fun im => if App2.notnull (snd im)
                      then [((2021 + fst im)%Z, snd im)]
                      else [])
           (App2.enumerate 0%Z (App2.year_cols row)) = []
  <-> forall annee, In annee [2021; 2022; 2023; 2024]%Z ->
                    isnan (montant_app2 annee row) = true.
Proof.
  unfold App2.notnull.
  cbn [App2.year_cols App2.enumerate flat_map fst snd].
  split.
  - intros H annee [<- | [<- | [<- | [<- | []]]]]; unfold montant_app2;
      simpl;
      destruct (isnan (App2.montant_2021 row)),
               (isnan (App2.montant_2022 row)),
               (isnan (App2.montant_2023 row)),
               (isnan (App2.montant_2024 row));
      simpl in H; try discriminate H; reflexivity.
  - intro H.
    pose proof (H 2021%Z ltac:(simpl; tauto)) as H1.
    pose proof (H 2022%Z ltac:(simpl; tauto)) as H2.
    pose proof (H 2023%Z ltac:(simpl; tauto)) as H3.
    pose proof (H 2024%Z ltac:(simpl; tauto)) as H4.
    unfold montant_app2 in H1, H2, H3, H4. simpl in H1, H2, H3, H4.
    rewrite H1, H2, H3, H4. reflexivity.
Qed.

Lemma levées_vide (df : list App2.Ligne) :
  App2.levées df = []
  <-> forall row annee, In row df -> In annee [2021; 2022; 2023; 2024]%Z ->
                        isnan (montant_app2 annee row) = true.
Proof.
  unfold App2.levées. induction df as [|row df IH]; cbn [flat_map].
  - split; [intros _ row annee [] | reflexivity].
  - split.
    + intro H. apply app_eq_nil in H. destruct H as [Hrow Hdf].
      intros row' annee [<- | Hin] Ha.
      * apply (proj1 (levées_ligne_vide row) Hrow), Ha.
      * apply (proj1 IH Hdf row' annee Hin Ha).
    + intro H.
      rewrite (proj2 (levées_ligne_vide row)
                 (fun annee Ha => H row annee (or_introl eq_refl) Ha)).
      apply IH. intros row' annee Hin Ha. apply H; [right; exact Hin | exact Ha].
Qed.

(** X10. The summary by year of [app2.py] cannot be built (the grouping
    raises) exactly when every amount of every row is null.  When it is
    built, its rows are the years, in increasing order, in which at least
    one amount is not null: a year without any amount has no row. *)
Theorem X10_synthese_annees (df : list App2.Ligne) :
  (App2.synthèse df = None
   <-> forall row annee, In row df -> In annee [2021; 2022; 2023; 2024]%Z ->
                         isnan (montant_app2 annee row) = true) /\
  (forall t,
      App2.synthèse df = Some t ->
      map fst t
      = filter (fun a => existsb (fun row => App2.notnull (montant_app2 a row)) df)
               [2021; 2022; 2023; 2024]%Z).
Proof.
  split.
  - rewrite <- levées_vide. unfold App2.synthèse.
    destruct (App2.levées df); split; congruence.
  - intros t. rewrite <- clés_levées. unfold App2.synthèse.
    destruct (App2.levées df) as [|e l] eqn:E; [discriminate |].
    intro H. injection H as <-. rewrite map_map. cbn [fst]. apply map_id.
Qed.







(** ** The summary by sector of [app2.py] *)




(** ** The two figures of the filtered frame of [app2.py] *)






(** ** The detail by sector, criterion and year of [app2.py] *)

Lemma total_projets_pos (l : list App2.Ligne) :
  (1 <= App2.total_projets l)%nat /\ (length l <= App2.total_projets l)%nat.
Proof.
  unfold App2.total_projets.
  destruct (Nat.ltb_spec 0 (length l)); lia.
Qed.

(** X14. In the detail of a sector of [app2.py], the number of projects
    of a case is at most the number of projects of the sector, the divisor
    is never 0 (it is 1 for a sector without project), and the percentage
    is a number between 0 and 100; for a sector without project every case
    holds an amount of 0, no project and 0 percent. *)
Theorem X14_tableau_case (df : list App2.Ligne) (f : App2.filière)
  (c : App2.catégorie) (col : App2.Ligne -> fval) :
  (App2.nb_proj (App2.tableau_case df f c col) <= length (App2.fdf df f))%nat /\
  (1 <= App2.total_projets (App2.fdf df f))%nat /\
  (exists q, App2.pct (App2.tableau_case df f c col) = Fin q /\
             0 <= q /\ q <= 100) /\
  (App2.fdf df f = [] ->
   App2.montant (App2.tableau_case df f c col) = Fin 0 /\
   App2.nb_proj (App2.tableau_case df f c col) = 0%nat /\
   feq (App2.pct (App2.tableau_case df f c col)) (Fin 0)).
Proof.
  assert (Hnb : (App2.nb_proj (App2.tableau_case df f c col)
                 <= length (App2.fdf df f))%nat).
  { unfold App2.tableau_case, App2.cdf. cbn [App2.nb_proj].
    eapply Nat.le_trans; apply filter_length_le. }
  destruct (total_projets_pos (App2.fdf df f)) as [Hpos Hle].
  split; [exact Hnb |]. split; [exact Hpos |]. split.
  - unfold App2.tableau_case in *. cbn [App2.pct App2.nb_proj] in *.
    destruct (Nat.ltb_spec 0 (App2.total_projets (App2.fdf df f))) as [_ | H];
      [| lia].
    eexists. split; [reflexivity |].
    set (n := length _) in *. set (t := App2.total_projets _) in *.
    assert (Ht : t <> 0%nat) by lia.
    rewrite (Qmake_of_nat n t Ht).
    assert (H0 : 0 <= inject_Z (Z.of_nat n)).
    { replace 0 with (inject_Z 0) by reflexivity. rewrite <- Zle_Qle. lia. }
    assert (H1 : inject_Z (Z.of_nat n) <= inject_Z (Z.of_nat t)).
    { rewrite <- Zle_Qle. lia. }
    assert (H2 : 0 < inject_Z (Z.of_nat t)).
    { replace 0 with (inject_Z 0) by reflexivity. rewrite <- Zlt_Qlt. lia. }
    split.
    + apply Qmult_le_0_compat; [| lra].
      apply Qle_shift_div_l; [exact H2 | lra].
    + setoid_replace 100 with (1 * 100) at 2 by reflexivity.
      apply Qmult_le_compat_r; [| lra].
      apply Qle_shift_div_r; [exact H2 | lra].
  - intro E. unfold App2.tableau_case, App2.cdf. rewrite E.
    split; [reflexivity |]. split; reflexivity.
Qed.

(** ** Values that [pd.cut] leaves out *)

Lemma searchsorted_right_le (bins : list fval) (x : fval) :
  (searchsorted_right bins x <= length bins)%nat.
Proof. unfold searchsorted_right. apply filter_length_le. Qed.

Lemma searchsorted_right_tous (bins : list fval) (x : fval) :
  searchsorted_right bins x = length bins
  <-> forall b, In b bins -> fle b x = true.
Proof.
  induction bins as [|b l IH].
  - split; [intros _ b [] | reflexivity].
  - rewrite searchsorted_right_cons. pose proof (searchsorted_right_le l x).
    destruct (fle b x) eqn:E; cbn [length].
    + split.
      * intros H' b' [<- | Hin]; [exact E | apply IH; [lia | exact Hin]].
      * intro H'. rewrite (proj2 IH (fun b' Hb' => H' b' (or_intror Hb'))). lia.
    + split; [lia |]. intro H'.
      rewrite (H' b (or_introl eq_refl)) in E. discriminate E.
Qed.

Lemma searchsorted_right_aucun (bins : list fval) (x : fval) :
  croissant bins = true -> isnan x = false ->
  searchsorted_right bins x = 0%nat
  <-> bins = [] \/ fle (hd NaN bins) x = false.
Proof.
  intros Hs Hx. destruct bins as [|b rest]; [split; [tauto | reflexivity] |].
  cbn [hd]. rewrite searchsorted_right_cons.
  destruct (fle b x) eqn:E.
  - split; [lia | intros [H | H]; discriminate H].
  - split; [tauto |]. intros _.
    destruct rest as [|c rest]; [reflexivity |].
    pose proof Hs as Hs'. cbn [croissant] in Hs'.
    apply andb_prop in Hs'. destruct Hs' as [Hbc Hrest].
    assert (Hlt : flt x b = true).
    { apply fle_total; [exact Hx | | exact E].
      destruct b; try reflexivity. simpl in Hbc. discriminate. }
    rewrite (searchsorted_right_below c rest x Hrest (flt_trans _ _ _ Hlt Hbc)).
    reflexivity.
Qed.

(** X15. [pd.cut] with [right=False], for any edges in increasing order
    with one label per interval and no label twice.  A value that is not
    NaN gets the label of interval [i] exactly when it is at or above edge
    [i] and below edge [i + 1].  A value gets no label exactly when it is
    NaN, below the first edge, or at or above every edge. *)
Theorem X15_cut_intervalles (bins : list fval) (labels : list string)
  (x : fval) :
  croissant bins = true ->
  length bins = S (length labels) ->
  NoDup labels ->
  (isnan x = false ->
   forall i, (i < length labels)%nat ->
             (cut bins labels x = nth_error labels i <-> in_bucket bins i x)) /\
  (cut bins labels x = None
   <-> isnan x = true \/ fle (hd NaN bins) x = false
       \/ forall b, In b bins -> fle b x = true).
Proof.
  intros Hs Hlen Hnd. split.
  - intros Hx i Hi. apply cut_in_bucket; assumption.
  - unfold cut. destruct (isnan x) eqn:Hx; cbn [orb]; [tauto |].
    rewrite <- searchsorted_right_tous.
    pose proof (searchsorted_right_aucun bins x Hs Hx) as H0.
    pose proof (searchsorted_right_le bins x) as Hle.
    destruct (Nat.eqb_spec (searchsorted_right bins x) (length bins)) as [E | E];
      cbn [orb]; [tauto |].
    destruct (Nat.eqb_spec (searchsorted_right bins x) 0) as [Z | Z].
    + split; [| reflexivity]. intros _. right. left.
      destruct (proj1 H0 Z) as [-> | H]; [discriminate Hlen | exact H].
    + split.
      * intro H. apply nth_error_None in H. lia.
      * intros [H | [H | H]]; [discriminate H | | contradiction].
        exfalso. apply Z, H0. right. exact H.
Qed.

(** With the edges of the amounts, [+inf] gets no label. *)
Lemma X15_cut_intervalles_witness : cut bins_edges bins_labels PInf = None.
Proof.
  destruct (X15_cut_intervalles bins_edges bins_labels PInf eq_refl eq_refl
              NoDup_bins_labels) as [_ H].
  apply H. right. right.
  intros b Hb. simpl in Hb.
  destruct Hb as [<- | [<- | [<- | [<- | [<- | [<- | []]]]]]]; reflexivity.
Defined.

(** ** Tables of a selection against the tables of all the rows *)

Lemma Forall2_map_map {A B C : Type} (R : B -> C -> Prop) (f : A -> B)
  (g : A -> C) (l : list A) :
  (forall x, R (f x) (g x)) -> Forall2 R (map f l) (map g l).
Proof. intro H. induction l as [|x l IH]; simpl; constructor; auto. Qed.

Lemma value_counts_selection {A : Type} (labels : list string)
  (g : A -> option string) (m c : A -> bool) (l : list A) :
  Forall2 le (value_counts labels (map g (filter m (filter c l))))
             (value_counts labels (map g (filter m l))).
Proof.
  unfold value_counts. apply Forall2_map_map. intro lab.
  rewrite (compte_partage _ g m c l). lia.
Qed.

Lemma tables_selection (df : list App.Projet) (c : App.Projet -> bool)
  (a : App.annee_ref) (annee : Z) :
  In annee App.annees_levée ->
  (exists sel tous,
      colonne (App.df_tranches (filter c df)) annee = Some sel /\
      colonne (App.df_tranches df) annee = Some tous /\
      Forall2 le sel tous) /\
  (exists sel tous,
      colonne (App.table_age (filter c df) a) annee = Some sel /\
      colonne (App.table_age df a) annee = Some tous /\
      Forall2 le sel tous).
Proof.
  intro Ha. split.
  - do 2 eexists. rewrite !df_tranches_colonne by exact Ha.
    split; [reflexivity |]. split; [reflexivity |].
    rewrite !map_map. apply value_counts_selection.
  - do 2 eexists. rewrite !table_age_colonne by exact Ha.
    split; [reflexivity |]. split; [reflexivity |].
    rewrite !map_map. apply value_counts_selection.
Qed.

Lemma df_exoendo_filter (df : list App.Projet) (ch : App.choix_exoendo) :
  exists c, App.df_exoendo df ch = filter c df.
Proof.
  destruct ch.
  - exists (fun _ => true). symmetry. apply filter_vrai.
  - eexists. reflexivity.
  - eexists. reflexivity.
Qed.

(** X16. Whatever is chosen in a filter of [app.py], by flag or by
    origin, every cell of the amount table and of the age table of the
    selection is at most the same cell of the table of all the rows. *)
Theorem X16_selection_bornee (df : list App.Projet) (a : App.annee_ref)
  (annee : Z) :
  In annee App.annees_levée ->
  (forall c ch,
      (exists sel tous,
          colonne (App.df_tranches (App.df_filtre df c ch)) annee = Some sel /\
          colonne (App.df_tranches df) annee = Some tous /\
          Forall2 le sel tous) /\
      (exists sel tous,
          colonne (App.table_age (App.df_filtre df c ch) a) annee = Some sel /\
          colonne (App.table_age df a) annee = Some tous /\
          Forall2 le sel tous)) /\
  (forall ch,
      (exists sel tous,
          colonne (App.df_tranches (App.df_exoendo df ch)) annee = Some sel /\
          colonne (App.df_tranches df) annee = Some tous /\
          Forall2 le sel tous) /\
      (exists sel tous,
          colonne (App.table_age (App.df_exoendo df ch) a) annee = Some sel /\
          colonne (App.table_age df a) annee = Some tous /\
          Forall2 le sel tous)).
Proof.
  intro Ha. split.
  - intros c ch. rewrite df_filtre_critère. apply tables_selection, Ha.
  - intro ch. destruct (df_exoendo_filter df ch) as [c ->].
    apply tables_selection, Ha.
Qed.

(** The origin "EXOGENE" on [table_exemple] in 2021. *)
Lemma X16_selection_bornee_witness :
  exists sel tous,
    colonne (App.df_tranches (App.df_exoendo projets_exemple App.EXOGENE)) 2021
    = Some sel /\
    colonne (App.df_tranches projets_exemple) 2021 = Some tous /\
    Forall2 le sel tous.
Proof.
  destruct (X16_selection_bornee projets_exemple App.AnneeRCS 2021) as [_ H];
    [simpl; tauto |].
  destruct (H App.EXOGENE) as [Hsel _]. exact Hsel.
Defined.

(** ** The selections by origin *)

(** X17. The two selections by origin of [app.py] keep the rows whose
    flag EXOGENE is 1 and the rows whose flag ENDOGENE is 1.  They are not
    a partition of the rows: a row with both flags at 1 is in both, a row
    with none is in neither, and the two selections together count the rows
    once, plus the rows in both, minus the rows in neither. *)
Theorem X17_origines (df : list App.Projet) :
  (forall p, In p (App.df_exoendo df App.EXOGENE)
             <-> In p df /\ App.exogene p = 1%Z) /\
  (forall p, In p (App.df_exoendo df App.ENDOGENE)
             <-> In p df /\ App.endogene p = 1%Z) /\
  (length (App.df_exoendo df App.EXOGENE)
   + length (App.df_exoendo df App.ENDOGENE)
   + length (filter (fun p => negb (App.exogene p =? 1)%Z
                              && negb (App.endogene p =? 1)%Z) df))%nat
  = (length df
     + length (filter (fun p => (App.exogene p =? 1)%Z
                                && (App.endogene p =? 1)%Z) df))%nat.
Proof.
  unfold App.df_exoendo. split; [| split].
  - intro p. rewrite filter_In, Z.eqb_eq. tauto.
  - intro p. rewrite filter_In, Z.eqb_eq. tauto.
  - induction df as [|p df IH]; [reflexivity |].
    cbn [filter]. rewrite !length_si. cbn [length].
    destruct (App.exogene p =? 1)%Z, (App.endogene p =? 1)%Z; simpl; lia.
Qed.

(** ** The sectors selected in [app2.py] *)




